(** * Release manager: naming resolver, Create-RC orchestrator, progress stream

    A shallow embedding of
    - [getRcGheInfo]   (cards/createRc/getRcGheInfo.ts),
    - [createGheRc]    (the Create-RC orchestrator),
    - [createEventStream] (the server-sent-events response handler),
    and of the Promote-RC orchestrator as the specification describes it,
    together with the properties the specification states about them. *)

From Stdlib Require Import String Ascii List NArith Bool Lia DecimalString.
Import ListNotations.
Open Scope string_scope.

(** ** JavaScript primitives the sources rely on *)
Module Js.

(** The double-quote character, as a one-character string. *)
Definition dq : string := String (ascii_of_nat 34) EmptyString.

(** The line-feed character, as a one-character string. *)
Definition nl : string := String (ascii_of_nat 10) EmptyString.

(** [`${n}`] for a non-negative integer [n]: its decimal digits. *)
Definition numberToString (n : N) : string :=
  NilZero.string_of_uint (N.to_uint n).

(** Reading [String(s)] back as a non-negative integer; [None] unless [s] is a
    non-empty run of decimal digits. *)
Definition parseDigits (s : string) : option N :=
  match s with
  | EmptyString => None
  | _ => option_map N.of_uint (NilEmpty.uint_of_string s)
  end.

(** [xs.push(x)]: the array with [x] appended. *)
Definition push {A : Type} (xs : list A) (x : A) : list A := (xs ++ [x])%list.

End Js.

(** ** Data model (types/types.ts, as far as the sources read it) *)

Inductive VersioningStrategy := semver | calver.

Record GithubCoordinates := {
  org : string;
  repo : string;
}.

Record Project := {
  github : GithubCoordinates;
  name : string;
  versioningStrategy : VersioningStrategy;
}.

(** Keys of [SEMVER_PARTS]. *)
Inductive SemverPart := major | minor | patch.

Record SemverTagParts := {
  tp_major : N;
  tp_minor : N;
  tp_patch : N;
}.

(** The fields of a hosting-provider release that the sources read. *)
Record GhGetReleaseResponse := {
  tag_name : string;
  target_commitish : string;
  prerelease : bool;
}.

(** [ReturnType<typeof getRcGheInfo>] *)
Record RcGheInfo := {
  rcBranch : string;
  rcReleaseTag : string;
  releaseName : string;
}.

(** ** Naming resolver *)
Module NamingResolver.
Section WithHelpers.

(** The two helpers [getRcGheInfo] imports live in helpers/ and are taken as
    parameters; [getSemverTagParts] may throw on a tag it cannot read. *)
Context {E : Type}.
Variable getSemverTagParts : string -> E + SemverTagParts.
Variable getBumpedSemverTagParts : SemverTagParts -> SemverPart -> SemverTagParts.

(** The clock reading [format(new Date(), 'yyyy.MM.dd')], used when no date is
    injected. *)
Variable today : string.

Definition getRcGheInfo
    (project : Project)
    (latestRelease : option GhGetReleaseResponse)
    (semverBumpLevel : SemverPart)
    (injectedDate : option string) : E + RcGheInfo :=
  let injectedDate := match injectedDate with Some d => d | None => today end in
  match versioningStrategy project with
  | calver =>
      inr {| rcBranch := "rc/" ++ injectedDate;
             rcReleaseTag := "rc-" ++ injectedDate ++ "_0";
             releaseName := "Version " ++ injectedDate |}
  | semver =>
      match latestRelease with
      | None =>
          inr {| rcBranch := "rc/0.0.1";
                 rcReleaseTag := "rc-0.0.1";
                 releaseName := "Version 0.0.1" |}
      | Some latestRelease =>
          match getSemverTagParts (tag_name latestRelease) with
          | inl e => inl e
          | inr tagParts =>
              let bumpedTagParts := getBumpedSemverTagParts tagParts semverBumpLevel in
              let bumpedTag :=
                Js.numberToString (tp_major bumpedTagParts) ++ "." ++
                Js.numberToString (tp_minor bumpedTagParts) ++ "." ++
                Js.numberToString (tp_patch bumpedTagParts) in
              inr {| rcBranch := "rc/" ++ bumpedTag;
                     rcReleaseTag := "rc-" ++ bumpedTag;
                     releaseName := "Version " ++ bumpedTag |}
          end
      end
  end.

End WithHelpers.
End NamingResolver.

(** ** Calver tags *)
Module Calver.

(** The part of [s] after its last occurrence of [c], if [c] occurs. *)
Fixpoint afterLast (c : ascii) (s : string) : option string :=
  match s with
  | EmptyString => None
  | String a rest =>
      match afterLast c rest with
      | Some t => Some t
      | None => if Ascii.eqb a c then Some rest else None
      end
  end.

(** Modelled from the spec: the helper that reads an existing calver tag is not
    among the sources.  A calver tag is "a date-stamped identifier plus a
    same-day sequence counter", written [<prefix>-<date>_<sequence>]; its
    sequence component is the decimal number after the last underscore. *)
Definition sequenceOf (tag : string) : option N :=
  match afterLast "_"%char tag with
  | Some digits => Js.parseDigits digits
  | None => None
  end.

(** Modelled from the spec: a release-candidate tag of the date [d] reads
    [rc-<d>_<sequence>]. *)
Definition isTagOfDate (d tag : string) : bool :=
  String.prefix ("rc-" ++ d ++ "_") tag.

(** "The next unused integer suffix for the current date": [next] carries a
    sequence number that is 0 when no tag of [existing] is of the date [d],
    and exceeds the sequence number of every tag of [existing] that is. *)
Definition isNextUnusedSequence (d : string) (existing : list string)
    (next : string) : Prop :=
  exists n : N,
    sequenceOf next = Some n /\
    (forallb (fun tag => negb (isTagOfDate d tag)) existing = true -> n = 0%N) /\
    (forall (tag : string) (m : N),
        In tag existing -> isTagOfDate d tag = true ->
        sequenceOf tag = Some m -> (m < n)%N).

End Calver.

(** ** Errors and effects of the orchestrators *)

(** The [body] of a provider error; [body_message] is [Some m] when
    [body.message] is the string [m], and [None] when it is anything else. *)
Record ErrorBody := {
  body_message : option string;
}.

(** An error object a collaborator rejects with; [err_body] is [None] when the
    object has no [body] property (or a nullish one). *)
Record ErrorValue := {
  err_message : string;
  err_body : option ErrorBody;
}.

(** What an orchestrator run can throw. *)
Inductive Thrown :=
| Rejection (e : ErrorValue)
    (* the very value a collaborator's promise rejected with *)
| ReleaseManagerAsAServiceError (message : string)
    (* new ReleaseManagerAsAServiceError(message) *)
| TypeErrorReadingProperty (property : string)
    (* the TypeError of reading [property] from undefined *)
| PreconditionError (message : string).
    (* an orchestrator refusing to start *)

Inductive Outcome (A : Type) :=
| Returned (a : A)
| Threw (t : Thrown).
Arguments Returned {A} a.
Arguments Threw {A} t.

Record GhCommitDetails := {
  commit_message : string;
}.

Record GhCommit := {
  sha : string;
  commit_html_url : string;
  commit : GhCommitDetails;
}.

Record GhCreateReferenceResponse := {
  ref : string;
}.

Record GhComparison := {
  comparison_html_url : string;
  ahead_by : N;
}.

Record GhCreateReleaseResponse := {
  release_name : string;
  release_html_url : string;
  release_tag_name : string;
}.

Inductive StepIcon := success | failure.

Record ResponseStep := {
  message : string;
  secondaryMessage : option string;
  link : option string;
  icon : option StepIcon;
}.

(** The argument of [ComponentConfigCreateRc['successCb']]. *)
Record SuccessCbArgs := {
  gitHubReleaseUrl : string;
  gitHubReleaseName : string;
  comparisonUrl : string;
  previousTag : option string;
  createdTag : string;
}.

(** One call issued to a collaborator, with its arguments. *)
Inductive Call :=
| CallGetLatestCommit (defaultBranch : string)
| CallCreateRef (mostRecentSha targetBranch : string)
| CallGetComparison (previousReleaseBranch nextReleaseBranch : string)
| CallCreateRelease (nextGheInfo : RcGheInfo) (releaseBody : string)
| CallSuccessCb (args : SuccessCbArgs)
| CallMarkReleaseAsFull (release : GhGetReleaseResponse)
| CallMergeIntoMainline (branch : string).

Module Effects.
Section WithWorld.

(** [W] is whatever the collaborators keep between calls (the remote
    repository, the caller's own state). *)
Context {W : Type}.

Record St := {
  world : W;
  calls : list Call;   (* every collaborator call so far, oldest first *)
}.

(** A collaborator's asynchronous method: resolves or rejects, and may change
    the world. *)
Definition Remote (A : Type) : Type := W -> (ErrorValue + A) * W.

Definition M (A : Type) : Type := St -> Outcome A * St.

Definition ret {A} (a : A) : M A := fun st => (Returned a, st).

Definition throw {A} (t : Thrown) : M A := fun st => (Threw t, st).

Definition bind {A B} (m : M A) (k : A -> M B) : M B :=
  fun st =>
    match m st with
    | (Returned a, st') => k a st'
    | (Threw t, st') => (Threw t, st')
    end.

(** [try { m } catch (error) { handler error }] *)
Definition tryCatch {A} (m : M A) (handler : Thrown -> M A) : M A :=
  fun st =>
    match m st with
    | (Returned a, st') => (Returned a, st')
    | (Threw t, st') => handler t st'
    end.

(** [await r], recording the call [c] that produced the promise. *)
Definition await {A} (c : Call) (r : Remote A) : M A :=
  fun st =>
    let (res, w) := r (world st) in
    let st' := {| world := w; calls := Js.push (calls st) c |} in
    match res with
    | inr a => (Returned a, st')
    | inl e => (Threw (Rejection e), st')
    end.

(** [error.body.message] on a caught value: reading [message] from a missing
    [body] throws. *)
Definition readBodyMessage (error : Thrown) : M (option string) :=
  match error with
  | Rejection e =>
      match err_body e with
      | Some b => ret (body_message b)
      | None => throw (TypeErrorReadingProperty "message")
      end
  | ReleaseManagerAsAServiceError _ | TypeErrorReadingProperty _
  | PreconditionError _ =>
      throw (TypeErrorReadingProperty "message")
  end.

End WithWorld.
Arguments St : clear implicits.
Arguments Remote : clear implicits.
Arguments M : clear implicits.
End Effects.

Declare Scope orch_scope.
Delimit Scope orch_scope with orch.
Notation "x <- m ;; k" := (Effects.bind m (fun x => k))
  (at level 61, m at next level, right associativity) : orch_scope.

(** ** Create-RC orchestrator *)
Module CreateRc.
Import Effects.
Section WithWorld.

Context {W : Type}.

(** [apiClient.createRc] *)
Record CreateRcApi := {
  createRef : string -> string -> Remote W GhCreateReferenceResponse;
  getComparison : string -> string -> Remote W GhComparison;
  createRelease : RcGheInfo -> string -> Remote W GhCreateReleaseResponse;
}.

(** The part of [RMaaSApiClient] the orchestrator drives. *)
Record RMaaSApiClient := {
  getLatestCommit : string -> Remote W GhCommit;
  createRc : CreateRcApi;
}.

Definition SuccessCb : Type := SuccessCbArgs -> Remote W unit.

(** The release body composed in step 3. *)
Definition releaseBodyOf (comparison : GhComparison)
    (createdRef : GhCreateReferenceResponse) : string :=
  "**Compare** " ++ comparison_html_url comparison ++ Js.nl ++
  Js.nl ++
  "**Ahead by** " ++ Js.numberToString (ahead_by comparison) ++ " commits" ++ Js.nl ++
  Js.nl ++
  "**Release branch** " ++ ref createdRef ++ Js.nl ++
  Js.nl ++
  "---" ++ Js.nl ++
  Js.nl.

Definition conflictMessage (rcBranch : string) : string :=
  "Branch " ++ Js.dq ++ rcBranch ++ Js.dq ++ " already exists: .../tree/" ++ rcBranch.

Definition createGheRc
    (apiClient : RMaaSApiClient)
    (defaultBranch : string)
    (latestRelease : option GhGetReleaseResponse)
    (nextGheInfo : RcGheInfo)
    (successCb : option SuccessCb) : M W (list ResponseStep) :=
  (let responseSteps : list ResponseStep := [] in
   (* 1. Get the default branch's most recent commit *)
   latestCommit <- await (CallGetLatestCommit defaultBranch)
                         (getLatestCommit apiClient defaultBranch) ;;
   let responseSteps := Js.push responseSteps
     {| message := "Fetched latest commit from " ++ Js.dq ++ defaultBranch ++ Js.dq;
         secondaryMessage :=
           Some ("with message " ++ Js.dq ++ commit_message (commit latestCommit) ++ Js.dq);
         link := Some (commit_html_url latestCommit);
         icon := None |} in
   (* 2. Create a new ref based on the default branch's most recent sha *)
   let mostRecentSha := sha latestCommit in
   createdRef <-
     tryCatch
       (await (CallCreateRef mostRecentSha (rcBranch nextGheInfo))
              (createRef (createRc apiClient) mostRecentSha (rcBranch nextGheInfo)))
       (fun error =>
          bodyMessage <- readBodyMessage error ;;
          match bodyMessage with
          | Some m =>
              if String.eqb m "Reference already exists"
              then throw (ReleaseManagerAsAServiceError
                            (conflictMessage (rcBranch nextGheInfo)))
              else throw error
          | None => throw error
          end) ;;
   let responseSteps := Js.push responseSteps
     {| message := "Cut Release Branch";
         secondaryMessage := Some ("with ref " ++ Js.dq ++ ref createdRef ++ Js.dq);
         link := None;
         icon := None |} in
   (* 3. Compose a body for the release *)
   let previousReleaseBranch :=
     match latestRelease with
     | Some r => target_commitish r
     | None => defaultBranch
     end in
   let nextReleaseBranch := rcBranch nextGheInfo in
   comparison <- await (CallGetComparison previousReleaseBranch nextReleaseBranch)
                       (getComparison (createRc apiClient)
                                      previousReleaseBranch nextReleaseBranch) ;;
   let releaseBody := releaseBodyOf comparison createdRef in
   let responseSteps := Js.push responseSteps
     {| message := "Fetched commit comparision";
         secondaryMessage := Some (previousReleaseBranch ++ "..." ++ nextReleaseBranch);
         link := Some (comparison_html_url comparison);
         icon := None |} in
   (* 4. Creates the release itself in GHE *)
   createReleaseResponse <-
     await (CallCreateRelease nextGheInfo releaseBody)
           (createRelease (createRc apiClient) nextGheInfo releaseBody) ;;
   let responseSteps := Js.push responseSteps
     {| message := "Created Release Candidate " ++ Js.dq ++
                    release_name createReleaseResponse ++ Js.dq;
         secondaryMessage :=
           Some ("with tag " ++ Js.dq ++ rcReleaseTag nextGheInfo ++ Js.dq);
         link := Some (release_html_url createReleaseResponse);
         icon := None |} in
   _ <- match successCb with
        | Some cb =>
            let args :=
              {| gitHubReleaseUrl := release_html_url createReleaseResponse;
                 gitHubReleaseName := release_name createReleaseResponse;
                 comparisonUrl := comparison_html_url comparison;
                 previousTag := option_map tag_name latestRelease;
                 createdTag := release_tag_name createReleaseResponse |} in
            await (CallSuccessCb args) (cb args)
        | None => ret tt
        end ;;
   ret responseSteps)%orch.

End WithWorld.
Arguments CreateRcApi : clear implicits.
Arguments RMaaSApiClient : clear implicits.
Arguments SuccessCb : clear implicits.
End CreateRc.

(** ** Promote-RC orchestrator *)
Module PromoteRc.
Import Effects.
Section WithWorld.

Context {W : Type}.

(** The facade operations Promote-RC drives. *)
Record PromoteRcApi := {
  markReleaseAsFull : GhGetReleaseResponse -> Remote W GhCreateReleaseResponse;
  mergeIntoMainline : string -> Remote W unit;
}.

(** Modelled from the spec: the Promote-RC orchestrator is not among the
    sources (only the test of its component is, which checks the early return
    on [latestRelease = null], the not-a-release-candidate warning, and the
    promotion body).  Per the spec: a latest release must exist, otherwise no
    remote call is attempted and "nothing to promote" is signalled; a latest
    release that is not a prerelease is promoted only on the caller's explicit
    confirmation; then ValidatePrerelease -> MarkReleaseAsFull -> (optional)
    MergeIntoMainline -> Done, one step recorded per completed remote
    operation.  The wording of the recorded steps is not fixed by the spec. *)
Definition promoteRc
    (apiClient : PromoteRcApi)
    (latestRelease : option GhGetReleaseResponse)
    (confirmed : bool)
    (mainline : option string) : M W (list ResponseStep) :=
  match latestRelease with
  | None => throw (PreconditionError "nothing to promote")
  | Some rcRelease =>
      if negb (prerelease rcRelease) && negb confirmed
      then throw (PreconditionError "latest release is not a release candidate")
      else
        (let responseSteps : list ResponseStep := [] in
         promoted <- await (CallMarkReleaseAsFull rcRelease)
                           (markReleaseAsFull apiClient rcRelease) ;;
         let responseSteps := Js.push responseSteps
           {| message := "Promoted " ++ Js.dq ++ release_name promoted ++ Js.dq;
              secondaryMessage := None;
              link := Some (release_html_url promoted);
              icon := None |} in
         match mainline with
         | None => ret responseSteps
         | Some branch =>
             _ <- await (CallMergeIntoMainline branch)
                        (mergeIntoMainline apiClient branch) ;;
             ret (Js.push responseSteps
                    {| message := "Merged into " ++ Js.dq ++ branch ++ Js.dq;
                       secondaryMessage := None;
                       link := None;
                       icon := None |})
         end)%orch
  end.

End WithWorld.
Arguments PromoteRcApi : clear implicits.
End PromoteRc.

(** ** Progress stream (server-sent events) *)
Module EventStream.

(** [JSON.stringify] on the two payload shapes the stream carries. Strings are
    sequences of code units below 256 here. *)
Module JSON.

Definition backslash : ascii := ascii_of_nat 92.

Definition hexDigit (n : nat) : ascii :=
  match String.get n "0123456789abcdef" with
  | Some c => c
  | None => "0"%char
  end.

Definition escaped (c : ascii) : string := String backslash (String c EmptyString).

(** QuoteJSONString on one code unit. *)
Definition quoteCodeUnit (c : ascii) : string :=
  let n := nat_of_ascii c in
  if Nat.eqb n 8 then escaped "b"%char
  else if Nat.eqb n 9 then escaped "t"%char
  else if Nat.eqb n 10 then escaped "n"%char
  else if Nat.eqb n 12 then escaped "f"%char
  else if Nat.eqb n 13 then escaped "r"%char
  else if Nat.eqb n 34 then escaped c
  else if Nat.eqb n 92 then escaped c
  else if Nat.ltb n 32 then
    String backslash
      (String "u"%char
         (String "0"%char
            (String "0"%char
               (String (hexDigit (Nat.div n 16))
                  (String (hexDigit (Nat.modulo n 16)) EmptyString)))))
  else String c EmptyString.

Fixpoint quoteCodeUnits (s : string) : string :=
  match s with
  | EmptyString => EmptyString
  | String c rest => quoteCodeUnit c ++ quoteCodeUnits rest
  end.

Definition stringifyString (s : string) : string :=
  Js.dq ++ quoteCodeUnits s ++ Js.dq.

Definition stringifyBoolean (b : bool) : string :=
  if b then "true" else "false".

End JSON.

(** The argument of [finish]. *)
Record SyncResult := {
  updated : bool;
}.

(** What [send] is given as [data]. *)
Inductive Data :=
| DataString (s : string)
| DataResult (result : SyncResult).

Definition stringify (data : Data) : string :=
  match data with
  | DataString s => JSON.stringifyString s
  | DataResult result =>
      "{" ++ Js.dq ++ "updated" ++ Js.dq ++ ":" ++
      JSON.stringifyBoolean (updated result) ++ "}"
  end.

Inductive EventType := EventError | EventFinish | EventLog.

Definition eventName (type : EventType) : string :=
  match type with
  | EventError => "error"
  | EventFinish => "finish"
  | EventLog => "log"
  end.

(** The express response, as far as the stream touches it. *)
Record Response := {
  head : option (N * list (string * string));  (* status and headers sent *)
  body : list string;                          (* chunks written, oldest first *)
  ended : bool;                                (* [res.end()] has been called *)
  flushes : nat;                               (* calls of [res.flush()] *)
  hasSocket : bool;                            (* [res.socket] is present *)
  hasFlush : bool;                             (* [res.flush] is present *)
  endsOnSocketClose : bool;                    (* the 'close' listener is set *)
}.

(** [res.writeHead(status, headers)]; [None] when the head was already sent,
    where Node throws. *)
Definition writeHead (status : N) (headers : list (string * string))
    (res : Response) : option Response :=
  match head res with
  | Some _ => None
  | None =>
      Some {| head := Some (status, headers);
              body := body res; ended := ended res; flushes := flushes res;
              hasSocket := hasSocket res; hasFlush := hasFlush res;
              endsOnSocketClose := endsOnSocketClose res |}
  end.

(** [res.write(chunk)]: once the response has ended, Node's http response
    refuses the chunk (it reports a write-after-end error on the stream
    asynchronously and sends nothing). *)
Definition write (chunk : string) (res : Response) : Response :=
  if ended res then res
  else
    {| head := head res; body := Js.push (body res) chunk; ended := ended res;
       flushes := flushes res; hasSocket := hasSocket res; hasFlush := hasFlush res;
       endsOnSocketClose := endsOnSocketClose res |}.

Definition flush (res : Response) : Response :=
  {| head := head res; body := body res; ended := ended res;
     flushes := S (flushes res); hasSocket := hasSocket res; hasFlush := hasFlush res;
     endsOnSocketClose := endsOnSocketClose res |}.

(** [res.end()] *)
Definition end_ (res : Response) : Response :=
  {| head := head res; body := body res; ended := true;
     flushes := flushes res; hasSocket := hasSocket res; hasFlush := hasFlush res;
     endsOnSocketClose := endsOnSocketClose res |}.

(** [res.socket?.on('close', () => { res.end(); })] *)
Definition onSocketClose (res : Response) : Response :=
  if hasSocket res then
    {| head := head res; body := body res; ended := ended res;
       flushes := flushes res; hasSocket := hasSocket res; hasFlush := hasFlush res;
       endsOnSocketClose := true |}
  else res.

(** [DocsSynchronizerSyncOpts]: the three callbacks, each acting on the
    response they close over. *)
Record DocsSynchronizerSyncOpts := {
  log : string -> Response -> Response;
  error : ErrorValue -> Response -> Response;
  finish : SyncResult -> Response -> Response;
}.

Definition frame (type : EventType) (data : Data) : string :=
  "event: " ++ eventName type ++ Js.nl ++ "data: " ++ stringify data ++ Js.nl ++ Js.nl.

(** write the event to the stream *)
Definition send (type : EventType) (data : Data) (res : Response) : Response :=
  let res := write (frame type data) res in
  (* res.flush() is only available with the compression middleware *)
  if hasFlush res then flush res else res.

(** [createEventStream(res)]: the response after set-up, and the callbacks;
    [None] when [writeHead] throws. *)
Definition createEventStream (res : Response)
    : option (Response * DocsSynchronizerSyncOpts) :=
  (* Mandatory headers and http status to keep connection open *)
  match writeHead 200 [("Connection", "keep-alive");
                       ("Cache-Control", "no-cache");
                       ("Content-Type", "text/event-stream")] res with
  | None => None
  | Some res =>
      (* client closes connection *)
      let res := onSocketClose res in
      Some (res,
            {| log := fun data res => send EventLog (DataString data) res;
               error := fun e res =>
                 end_ (send EventError (DataString (err_message e)) res);
               finish := fun result res =>
                 end_ (send EventFinish (DataResult result) res) |})
  end.

(** What can happen to a stream once it is created. *)
Inductive Action :=
| Log (data : string)
| Error (e : ErrorValue)
| Finish (result : SyncResult)
| SocketClosed.

Definition perform (h : DocsSynchronizerSyncOpts) (a : Action) (res : Response)
    : Response :=
  match a with
  | Log data => log h data res
  | Error e => error h e res
  | Finish result => finish h result res
  | SocketClosed => if endsOnSocketClose res then end_ res else res
  end.

Definition performAll (h : DocsSynchronizerSyncOpts) (actions : list Action)
    (res : Response) : Response :=
  fold_left (fun res a => perform h a res) actions res.

(** The callbacks that emit a terminal event. *)
Definition isTerminal (a : Action) : bool :=
  match a with
  | Error _ | Finish _ => true
  | Log _ | SocketClosed => false
  end.

(** The events the stream can carry whose emission closes it. *)
Definition closesStream (type : EventType) : bool :=
  match type with
  | EventError | EventFinish => true
  | EventLog => false
  end.

Definition eventOf (a : Action) : option (EventType * Data) :=
  match a with
  | Log data => Some (EventLog, DataString data)
  | Error e => Some (EventError, DataString (err_message e))
  | Finish result => Some (EventFinish, DataResult result)
  | SocketClosed => None
  end.

End EventStream.


(** ** The techdocs router (router.ts): bearer token, legacy response, sync route *)
Module Router.

(** [\s] on code units below 256 (header values reach the router as Latin-1
    text): TAB, LF, VT, FF, CR, space and no-break space. *)
Definition isWhiteSpace (c : ascii) : bool :=
  let n := nat_of_ascii c in
  (Nat.leb 9 n && Nat.leb n 13) || Nat.eqb n 32 || Nat.eqb n 160.

(** [\S] *)
Definition isNonWhiteSpace (c : ascii) : bool := negb (isWhiteSpace c).

(** Canonicalisation of the [i] flag on the letters the pattern uses. *)
Definition toUpper (c : ascii) : ascii :=
  let n := nat_of_ascii c in
  if Nat.leb 97 n && Nat.leb n 122 then ascii_of_nat (n - 32) else c.

(** The literal [pattern] at the start of [s], ignoring case: what follows it. *)
Fixpoint matchLiteral (pattern s : string) : option string :=
  match pattern with
  | EmptyString => Some s
  | String p pattern' =>
      match s with
      | EmptyString => None
      | String c s' =>
          if Ascii.eqb (toUpper p) (toUpper c) then matchLiteral pattern' s' else None
      end
  end.

Fixpoint takeWhile (p : ascii -> bool) (s : string) : string :=
  match s with
  | EmptyString => EmptyString
  | String c s' => if p c then String c (takeWhile p s') else EmptyString
  end.

Fixpoint dropWhile (p : ascii -> bool) (s : string) : string :=
  match s with
  | EmptyString => EmptyString
  | String c s' => if p c then dropWhile p s' else s
  end.

(** Every character of [s] satisfies [p]. *)
Fixpoint every (p : ascii -> bool) (s : string) : bool :=
  match s with
  | EmptyString => true
  | String c s' => p c && every p s'
  end.

(** What does not start with a character satisfying [p]. *)
Definition stopsAt (p : ascii -> bool) (s : string) : Prop :=
  match s with
  | EmptyString => True
  | String c _ => p c = false
  end.

(** [/(?:Bearer)\s+(\S+)/i] tried at the start of [s]: the first group.  Both
    quantifiers are greedy and nothing follows the group, so the match exists
    exactly when some white space follows the scheme and a non-white-space
    character follows all of it, and the group is the whole run of such
    characters. *)
Definition matchAtStart (s : string) : option string :=
  match matchLiteral "Bearer" s with
  | None => None
  | Some afterScheme =>
      match afterScheme with
      | EmptyString => None
      | String c rest =>
          if isWhiteSpace c then
            match takeWhile isNonWhiteSpace (dropWhile isWhiteSpace rest) with
            | EmptyString => None
            | token => Some token
            end
          else None
      end
  end.

(** [s.match(re)?.[1]]: the leftmost position where the pattern matches. *)
Fixpoint firstMatch (s : string) : option string :=
  match matchAtStart s with
  | Some token => Some token
  | None =>
      match s with
      | EmptyString => None
      | String _ s' => firstMatch s'
      end
  end.

Definition getBearerToken (header : option string) : option string :=
  match header with
  | Some h => firstMatch h
  | None => None
  end.

(** What a route handler can throw. *)
Inductive RouterError :=
| NotFoundError (message : string)
| NotModifiedError
| HeadersAlreadySent
    (* what [writeHead] throws on a response whose head is out *)
| ErrorObject (e : ErrorValue).
    (* an error object handed over by a caller or a collaborator *)

(** Calls on the response that are not stream operations, as the legacy handler
    makes them. *)
Inductive ResCall :=
| ResStatus (code : N)
| ResJson (message : string).   (* [res.json({ message })] *)

(** What a run of the sync route acts on. *)
Record RouteState := {
  stream : EventStream.Response;
  resCalls : list ResCall;      (* oldest first *)
  warnings : list string;       (* [console.warn], oldest first *)
}.

Definition withStream (st : RouteState) (r : EventStream.Response) : RouteState :=
  {| stream := r; resCalls := resCalls st; warnings := warnings st |}.

(** [DocsSynchronizerSyncOpts] as the route hands it on: callbacks that act on
    the response and may throw. *)
Record ResponseHandler := {
  log : string -> RouteState -> option RouterError * RouteState;
  error : ErrorValue -> RouteState -> option RouterError * RouteState;
  finish : EventStream.SyncResult -> RouteState -> option RouterError * RouteState;
}.

(** The callbacks of [createEventStream], acting on the response of the route. *)
Definition ofEventStream (h : EventStream.DocsSynchronizerSyncOpts) : ResponseHandler :=
  {| log := fun data st => (None, withStream st (EventStream.log h data (stream st)));
     error := fun e st => (None, withStream st (EventStream.error h e (stream st)));
     finish := fun result st =>
       (None, withStream st (EventStream.finish h result (stream st))) |}.

(** [createHttpResponse(res)] *)
Definition createHttpResponse : ResponseHandler :=
  {| log := fun _ st => (None, st);
     error := fun e st => (Some (ErrorObject e), st);
     finish := fun result st =>
       if negb (EventStream.updated result) then (Some NotModifiedError, st)
       else
         (None,
          {| stream := stream st;
             resCalls :=
               Js.push (Js.push (resCalls st) (ResStatus 201))
                       (ResJson "Docs updated or did not need updating");
             warnings := warnings st |}) |}.

Record Request := {
  kind : string;
  namespace : string;
  entityName : string;                 (* [req.params.name] *)
  authorization : option string;       (* [req.headers.authorization] *)
  accept : option string;              (* [req.header('accept')] *)
}.

(** A catalog entity, as far as the route reads it; [uid] is
    [entity.metadata?.uid]. *)
Record Entity := {
  uid : option string;
}.

(** The entity when [entity?.metadata?.uid] is truthy. *)
Definition withUid (entity : option Entity) : option Entity :=
  match entity with
  | Some e =>
      match uid e with
      | Some u => if String.eqb u EmptyString then None else Some e
      | None => None
      end
  | None => None
  end.

Definition deprecationWarning : string :=
  "The call to /sync/:namespace/:kind/:name wasn't done by an EventSource. This behavior is deprecated and will be removed soon. Make sure to update the @backstage/plugin-techdocs package in the frontend to the latest version.".

Definition invalidConfiguration : ErrorValue :=
  {| err_message :=
       "Invalid configuration. 'docsBuildStrategy.shouldBuild returned 'true', but no 'preparer' was provided to the router initialization.";
     err_body := None |}.

Section SyncRoute.

(** [PreparerBuilder] and [GeneratorBuilder] *)
Context {Preparers Generators : Type}.

(** [RouterOptions], as far as the sync route reads it. *)
Record RouterOptions := {
  preparers : option Preparers;
  generators : option Generators;
}.

(** Typeguard: out-of-the-box deployment. *)
Definition isOutOfTheBoxOption (opt : RouterOptions) : bool :=
  match preparers opt with
  | Some _ => true
  | None => false
  end.

(** The collaborators of the route: the entity loader, the build strategy and
    the synchronizer. *)
Record Collaborators := {
  load : string -> string -> string -> option string -> RouterError + option Entity;
  shouldBuild : Entity -> RouterError + bool;
  doCacheSync : ResponseHandler -> option string -> Entity ->
                RouteState -> option RouterError * RouteState;
  doSync : ResponseHandler -> Entity -> option Preparers -> option Generators ->
           RouteState -> option RouterError * RouteState;
}.

(** The handler of [GET /sync/:namespace/:kind/:name]; [cache] tells whether a
    cache was set up. *)
Definition syncRoute
    (options : RouterOptions) (collaborators : Collaborators) (cache : bool)
    (req : Request) (st : RouteState) : option RouterError * RouteState :=
  let token := getBearerToken (authorization req) in
  match load collaborators (kind req) (namespace req) (entityName req) token with
  | inl e => (Some e, st)
  | inr entity =>
      match withUid entity with
      | None => (Some (NotFoundError "Entity metadata UID missing"), st)
      | Some entity =>
        let chosen :=
          if negb (match accept req with
                   | Some a => String.eqb a "text/event-stream"
                   | None => false
                   end)
          then
            inr (createHttpResponse,
                 {| stream := stream st; resCalls := resCalls st;
                    warnings := Js.push (warnings st) deprecationWarning |})
          else
            match EventStream.createEventStream (stream st) with
            | Some (res, h) => inr (ofEventStream h, withStream st res)
            | None => inl HeadersAlreadySent
            end in
        match chosen with
        | inl e => (Some e, st)
        | inr (responseHandler, st) =>
            match shouldBuild collaborators entity with
            | inl e => (Some e, st)
            | inr false =>
                (* take the opportunity to check and invalidate stale cache entries *)
                if cache
                then doCacheSync collaborators responseHandler token entity st
                else finish responseHandler {| EventStream.updated := false |} st
            | inr true =>
                if isOutOfTheBoxOption options
                then doSync collaborators responseHandler entity
                            (preparers options) (generators options) st
                else error responseHandler invalidConfiguration st
            end
        end
      end
  end.

End SyncRoute.
Arguments RouterOptions : clear implicits.
Arguments Collaborators : clear implicits.

End Router.

(** ** The icon of a progress step (ResponseStepListItem.tsx) *)
Module ResponseStepListItem.

Inductive Icon :=
| CheckCircleOutline                 (* success *)
| ErrorOutlineIcon                   (* failure *)
| OpenInNewButton (href : string)    (* opens the step's link *)
| FiberManualRecordIcon.             (* the default dot *)

Definition ItemIcon (responseStep : ResponseStep) : Icon :=
  match icon responseStep with
  | Some success => CheckCircleOutline
  | Some failure => ErrorOutlineIcon
  | None =>
      match link responseStep with
      | Some href =>
          if String.eqb href EmptyString then FiberManualRecordIcon
          else OpenInNewButton href
      | None => FiberManualRecordIcon
      end
  end.

End ResponseStepListItem.

(** ** Reading the calls of a Create-RC run *)
Module CallOrder.

(** The place of a call in the Create-RC sequence; 0 for the calls of other
    orchestrators. *)
Definition position (c : Call) : nat :=
  match c with
  | CallGetLatestCommit _ => 1
  | CallCreateRef _ _ => 2
  | CallGetComparison _ _ => 3
  | CallCreateRelease _ _ => 4
  | CallSuccessCb _ => 5
  | CallMarkReleaseAsFull _ | CallMergeIntoMainline _ => 0
  end.

End CallOrder.

(** ** Line breaks, which delimit the fields of a server-sent event *)
Module Framing.

Definition isLineBreak (c : ascii) : bool :=
  let n := nat_of_ascii c in Nat.eqb n 10 || Nat.eqb n 13.

Definition noLineBreak (s : string) : bool :=
  Router.every (fun c => negb (isLineBreak c)) s.

(** The characters JSON.stringify copies as they are: from the space on,
    except the double quote and the backslash. *)
Definition isPlain (c : ascii) : bool :=
  let n := nat_of_ascii c in
  Nat.leb 32 n && negb (Nat.eqb n 34) && negb (Nat.eqb n 92).

(** The frames written for the actions that write one. *)
Definition frameOf (a : EventStream.Action) : list string :=
  match EventStream.eventOf a with
  | Some (type, data) => [EventStream.frame type data]
  | None => []
  end.

End Framing.

(** ** Fixtures used in examples *)
Module Fixtures.

Definition calverProject : Project :=
  {| github := {| org := "erikengervall"; repo := "playground-2" |};
     name := "ReleaseManagerAsAService (calver)";
     versioningStrategy := calver |}.

Definition semverProject : Project :=
  {| github := {| org := "erikengervall"; repo := "playground" |};
     name := "ReleaseManagerAsAService (semver)";
     versioningStrategy := semver |}.

(** Stand-ins for the two helpers of helpers/: the examples below never reach
    them. *)
Definition noTagParts (tag : string) : string + SemverTagParts := inl tag.
Definition noBump (parts : SemverTagParts) (level : SemverPart) : SemverTagParts := parts.

Definition getRcGheInfo :=
  NamingResolver.getRcGheInfo noTagParts noBump "2021.02.03".

Definition sameDayRelease : GhGetReleaseResponse :=
  {| tag_name := "rc-2024.03.01_0";
     target_commitish := "rc/2024.03.01";
     prerelease := true |}.

(** Facade stubs over a world that counts the remote round trips. *)
Definition stubCommit : GhCommit :=
  {| sha := "a1b2c3d";
     commit_html_url := "https://ghe.example/erikengervall/playground/commit/a1b2c3d";
     commit := {| commit_message := "Bump deps" |} |}.

Definition stubComparison : GhComparison :=
  {| comparison_html_url :=
       "https://ghe.example/erikengervall/playground/compare/master...rc/0.0.1";
     ahead_by := 3 |}.

Definition stubCreateRcApi : CreateRc.CreateRcApi nat :=
  {| CreateRc.createRef := fun mostRecentSha targetBranch n =>
       (inr {| ref := "refs/heads/" ++ targetBranch |}, S n);
     CreateRc.getComparison := fun previousReleaseBranch nextReleaseBranch n =>
       (inr stubComparison, S n);
     CreateRc.createRelease := fun nextGheInfo releaseBody n =>
       (inr {| release_name := releaseName nextGheInfo;
               release_html_url :=
                 "https://ghe.example/erikengervall/playground/releases/tag/" ++
                 rcReleaseTag nextGheInfo;
               release_tag_name := rcReleaseTag nextGheInfo |}, S n) |}.

(** Every call succeeds. *)
Definition succeedingApi : CreateRc.RMaaSApiClient nat :=
  {| CreateRc.getLatestCommit := fun defaultBranch n => (inr stubCommit, S n);
     CreateRc.createRc := stubCreateRcApi |}.

Definition rejectingCreateRef (e : ErrorValue) : CreateRc.RMaaSApiClient nat :=
  {| CreateRc.getLatestCommit := fun defaultBranch n => (inr stubCommit, S n);
     CreateRc.createRc :=
       {| CreateRc.createRef := fun mostRecentSha targetBranch n => (inl e, S n);
          CreateRc.getComparison := CreateRc.getComparison stubCreateRcApi;
          CreateRc.createRelease := CreateRc.createRelease stubCreateRcApi |} |}.

(** The provider's 422 for a branch that exists already. *)
Definition referenceAlreadyExists : ErrorValue :=
  {| err_message := "Unprocessable Entity";
     err_body := Some {| body_message := Some "Reference already exists" |} |}.

(** The provider's 403 for a missing permission. *)
Definition forbidden : ErrorValue :=
  {| err_message := "Forbidden";
     err_body := Some {| body_message := Some "Resource not accessible" |} |}.

(** What a failed fetch rejects with: an error without a body. *)
Definition failedToFetch : ErrorValue :=
  {| err_message := "Failed to fetch"; err_body := None |}.

Definition conflictingApi : CreateRc.RMaaSApiClient nat :=
  rejectingCreateRef referenceAlreadyExists.

Definition unreachableApi : CreateRc.RMaaSApiClient nat :=
  rejectingCreateRef failedToFetch.

Definition stubCreatedRef : GhCreateReferenceResponse :=
  {| ref := "refs/heads/rc/0.0.1" |}.

Definition stubRelease : GhCreateReleaseResponse :=
  {| release_name := "Version 0.0.1";
     release_html_url :=
       "https://ghe.example/erikengervall/playground/releases/tag/rc-0.0.1";
     release_tag_name := "rc-0.0.1" |}.

Definition firstRc : RcGheInfo :=
  {| rcBranch := "rc/0.0.1"; rcReleaseTag := "rc-0.0.1"; releaseName := "Version 0.0.1" |}.

Definition resolvingCb : CreateRc.SuccessCb nat := fun args n => (inr tt, n).

Definition start : Effects.St nat := {| Effects.world := 0; Effects.calls := [] |}.

(** A response nothing has been sent on yet. *)
Definition freshResponse : EventStream.Response :=
  {| EventStream.head := None;
     EventStream.body := [];
     EventStream.ended := false;
     EventStream.flushes := 0;
     EventStream.hasSocket := true;
     EventStream.hasFlush := true;
     EventStream.endsOnSocketClose := false |}.

End Fixtures.

(** ** Further fixtures *)
Module MoreFixtures.

(** Facade stubs that fail at one step; the steps before it succeed as in
    [Fixtures.succeedingApi]. *)
Definition rejectingGetLatestCommit (e : ErrorValue) : CreateRc.RMaaSApiClient nat :=
  {| CreateRc.getLatestCommit := fun defaultBranch n => (inl e, S n);
     CreateRc.createRc := Fixtures.stubCreateRcApi |}.

Definition rejectingGetComparison (e : ErrorValue) : CreateRc.RMaaSApiClient nat :=
  {| CreateRc.getLatestCommit := CreateRc.getLatestCommit Fixtures.succeedingApi;
     CreateRc.createRc :=
       {| CreateRc.createRef := CreateRc.createRef Fixtures.stubCreateRcApi;
          CreateRc.getComparison := fun _ _ n => (inl e, S n);
          CreateRc.createRelease := CreateRc.createRelease Fixtures.stubCreateRcApi |} |}.

Definition rejectingCreateRelease (e : ErrorValue) : CreateRc.RMaaSApiClient nat :=
  {| CreateRc.getLatestCommit := CreateRc.getLatestCommit Fixtures.succeedingApi;
     CreateRc.createRc :=
       {| CreateRc.createRef := CreateRc.createRef Fixtures.stubCreateRcApi;
          CreateRc.getComparison := CreateRc.getComparison Fixtures.stubCreateRcApi;
          CreateRc.createRelease := fun _ _ n => (inl e, S n) |} |}.

(** The provider's 500. *)
Definition serverError : ErrorValue :=
  {| err_message := "Internal Server Error";
     err_body := Some {| body_message := Some "Server Error" |} |}.

(** Stand-ins for the semver helpers that read 1.4.9 and bump it to 1.5.0. *)
Definition readsOneFourNine (tag : string) : string + SemverTagParts :=
  inr {| tp_major := 1; tp_minor := 4; tp_patch := 9 |}.

Definition bumpsToOneFiveZero (parts : SemverTagParts) (level : SemverPart)
    : SemverTagParts :=
  {| tp_major := 1; tp_minor := 5; tp_patch := 0 |}.

Definition semverRelease : GhGetReleaseResponse :=
  {| tag_name := "rc-1.4.9"; target_commitish := "rc/1.4.9"; prerelease := true |}.

(** Route collaborators that load [entity], answer [build] and synchronize by
    finishing at once. *)
Definition stubCollaborators (entity : option Router.Entity)
    (build : Router.RouterError + bool) : Router.Collaborators unit unit :=
  {| Router.load := fun _ _ _ _ => inr entity;
     Router.shouldBuild := fun _ => build;
     Router.doCacheSync := fun responseHandler _ _ st =>
       Router.finish responseHandler {| EventStream.updated := false |} st;
     Router.doSync := fun responseHandler _ _ _ st =>
       Router.finish responseHandler {| EventStream.updated := true |} st |}.

Definition docsEntity : Router.Entity := {| Router.uid := Some "d6a1f0" |}.

Definition recommendedDeployment : Router.RouterOptions unit unit :=
  {| Router.preparers := None; Router.generators := None |}.

Definition eventSourceRequest : Router.Request :=
  {| Router.kind := "component";
     Router.namespace := "default";
     Router.entityName := "docs";
     Router.authorization := Some "Bearer abc.def";
     Router.accept := Some "text/event-stream" |}.

Definition freshRoute : Router.RouteState :=
  {| Router.stream := Fixtures.freshResponse;
     Router.resCalls := [];
     Router.warnings := [] |}.

(** Errors whose own message reads like the provider's conflict, while the
    body of the response says something else, or is missing. *)
Definition misleadingValidationError : ErrorValue :=
  {| err_message := "Reference already exists";
     err_body := Some {| body_message := Some "Validation Failed" |} |}.

Definition misleadingBodylessError : ErrorValue :=
  {| err_message := "Reference already exists"; err_body := None |}.

(** A build failure whose message spans two lines. *)
Definition twoLineError : ErrorValue :=
  {| err_message := "Build failed" ++ Js.nl ++ "see log"; err_body := None |}.

Definition buildFailure : Router.RouterError :=
  Router.ErrorObject {| err_message := "strategy unavailable"; err_body := None |}.

End MoreFixtures.

(** * Properties *)

(** ** Naming resolver *)

(** C4: on a calver project the resolver returns rc/<date>, rc-<date>_0 and
    Version <date> for the injected date, whatever the latest release and the
    bump level are. *)
Theorem getRcGheInfo_calver_depends_only_on_date :
  forall (E : Type) (getSemverTagParts : string -> E + SemverTagParts)
         (getBumpedSemverTagParts : SemverTagParts -> SemverPart -> SemverTagParts)
         (today : string) (project : Project)
         (latestRelease : option GhGetReleaseResponse)
         (semverBumpLevel : SemverPart) (d : string),
    versioningStrategy project = calver ->
    NamingResolver.getRcGheInfo getSemverTagParts getBumpedSemverTagParts today
      project latestRelease semverBumpLevel (Some d)
    = inr {| rcBranch := "rc/" ++ d;
             rcReleaseTag := "rc-" ++ d ++ "_0";
             releaseName := "Version " ++ d |}.
Proof.
  intros E gp gb today project latestRelease level d Hcalver.
  unfold NamingResolver.getRcGheInfo.
  rewrite Hcalver.
  reflexivity.
Qed.

Lemma getRcGheInfo_calver_2024_03_01 :
  versioningStrategy Fixtures.calverProject = calver /\
  Fixtures.getRcGheInfo Fixtures.calverProject (Some Fixtures.sameDayRelease)
    major (Some "2024.03.01")
  = inr {| rcBranch := "rc/2024.03.01";
           rcReleaseTag := "rc-2024.03.01_0";
           releaseName := "Version 2024.03.01" |}.
Proof.
  split; [reflexivity|].
  apply (getRcGheInfo_calver_depends_only_on_date string Fixtures.noTagParts
           Fixtures.noBump "2021.02.03" Fixtures.calverProject
           (Some Fixtures.sameDayRelease) major "2024.03.01").
  reflexivity.
Defined.

(** C6: on a semver project with no latest release the resolver returns
    rc/0.0.1, rc-0.0.1 and Version 0.0.1, whatever the bump level is. *)
Theorem getRcGheInfo_semver_first_release :
  forall (E : Type) (getSemverTagParts : string -> E + SemverTagParts)
         (getBumpedSemverTagParts : SemverTagParts -> SemverPart -> SemverTagParts)
         (today : string) (project : Project)
         (semverBumpLevel : SemverPart) (injectedDate : option string),
    versioningStrategy project = semver ->
    NamingResolver.getRcGheInfo getSemverTagParts getBumpedSemverTagParts today
      project None semverBumpLevel injectedDate
    = inr {| rcBranch := "rc/0.0.1";
             rcReleaseTag := "rc-0.0.1";
             releaseName := "Version 0.0.1" |}.
Proof.
  intros E gp gb today project level injectedDate Hsemver.
  unfold NamingResolver.getRcGheInfo.
  now rewrite Hsemver.
Qed.

Lemma getRcGheInfo_semver_first_release_minor :
  versioningStrategy Fixtures.semverProject = semver /\
  Fixtures.getRcGheInfo Fixtures.semverProject None minor None
  = inr {| rcBranch := "rc/0.0.1";
           rcReleaseTag := "rc-0.0.1";
           releaseName := "Version 0.0.1" |}.
Proof.
  split; [reflexivity|].
  apply (getRcGheInfo_semver_first_release string Fixtures.noTagParts
           Fixtures.noBump "2021.02.03" Fixtures.semverProject minor None).
  reflexivity.
Defined.

Lemma afterLast_underscore_zero :
  forall p : string, Calver.afterLast "_"%char (p ++ "_0") = Some "0".
Proof.
  induction p as [|a p IH]; simpl.
  - reflexivity.
  - now rewrite IH.
Qed.

Lemma sequenceOf_calver_tag :
  forall d : string, Calver.sequenceOf ("rc-" ++ d ++ "_0") = Some 0%N.
Proof.
  intro d.
  unfold Calver.sequenceOf.
  change ("rc-" ++ d ++ "_0") with (("rc-" ++ d) ++ "_0").
  now rewrite afterLast_underscore_zero.
Qed.

(** C5, as stated, fails: with rc-2024.03.01_0 already released on 2024.03.01,
    the tag computed for that date is not one with the next unused sequence
    number. *)
Lemma calver_same_day_sequence_is_reused :
  exists info : RcGheInfo,
    Fixtures.getRcGheInfo Fixtures.calverProject (Some Fixtures.sameDayRelease)
      patch (Some "2024.03.01") = inr info /\
    rcReleaseTag info = tag_name Fixtures.sameDayRelease /\
    ~ Calver.isNextUnusedSequence "2024.03.01"
        [tag_name Fixtures.sameDayRelease] (rcReleaseTag info).
Proof.
  eexists. split; [reflexivity|]. split; [reflexivity|].
  intros [n [Hn [_ Hgt]]].
  vm_compute in Hn. injection Hn as <-.
  specialize (Hgt "rc-2024.03.01_0" 0%N (or_introl eq_refl) eq_refl eq_refl).
  lia.
Qed.

(** C5, amended: on a calver project the sequence component of the computed
    release-candidate tag is 0, whatever the latest release is. *)
Theorem getRcGheInfo_calver_sequence_is_zero :
  forall (E : Type) (getSemverTagParts : string -> E + SemverTagParts)
         (getBumpedSemverTagParts : SemverTagParts -> SemverPart -> SemverTagParts)
         (today : string) (project : Project)
         (latestRelease : option GhGetReleaseResponse)
         (semverBumpLevel : SemverPart) (injectedDate : option string),
    versioningStrategy project = calver ->
    exists info : RcGheInfo,
      NamingResolver.getRcGheInfo getSemverTagParts getBumpedSemverTagParts today
        project latestRelease semverBumpLevel injectedDate = inr info /\
      Calver.sequenceOf (rcReleaseTag info) = Some 0%N.
Proof.
  intros E gp gb today project latestRelease level injectedDate Hcalver.
  unfold NamingResolver.getRcGheInfo.
  rewrite Hcalver.
  eexists. split; [reflexivity|].
  cbn [rcReleaseTag].
  apply sequenceOf_calver_tag.
Qed.

Lemma getRcGheInfo_calver_sequence_is_zero_same_day :
  versioningStrategy Fixtures.calverProject = calver /\
  exists info : RcGheInfo,
    Fixtures.getRcGheInfo Fixtures.calverProject (Some Fixtures.sameDayRelease)
      patch (Some "2024.03.01") = inr info /\
    Calver.sequenceOf (rcReleaseTag info) = Some 0%N.
Proof.
  split; [reflexivity|].
  apply (getRcGheInfo_calver_sequence_is_zero string Fixtures.noTagParts
           Fixtures.noBump "2021.02.03" Fixtures.calverProject
           (Some Fixtures.sameDayRelease) patch (Some "2024.03.01")).
  reflexivity.
Defined.

(** ** Create-RC orchestrator *)

Section AwaitLemmas.
Import Effects.
Context {W A : Type}.

Lemma await_resolves (c : Call) (r : Remote W A) (w : W) (cs : list Call)
    (a : A) (w' : W) :
  r w = (inr a, w') ->
  await c r {| world := w; calls := cs |}
  = (Returned a, {| world := w'; calls := (cs ++ [c])%list |}).
Proof. unfold await. cbn. now intros ->. Qed.

Lemma await_rejects (c : Call) (r : Remote W A) (w : W) (cs : list Call)
    (e : ErrorValue) (w' : W) :
  r w = (inl e, w') ->
  await c r {| world := w; calls := cs |}
  = (Threw (Rejection e), {| world := w'; calls := (cs ++ [c])%list |}).
Proof. unfold await. cbn. now intros ->. Qed.

End AwaitLemmas.

Ltac start_run st :=
  destruct st as [w0 cs0]; cbn [Effects.world Effects.calls] in *.

Ltac step_await H :=
  unfold Effects.bind at 1;
  first [ rewrite (await_resolves _ _ _ _ _ _ H)
        | rewrite (await_rejects _ _ _ _ _ _ H) ].

Ltac finish_calls :=
  repeat rewrite <- app_assoc; reflexivity.

Section CreateRcProperties.
Import Effects CreateRc.
Context {W : Type}.
Variable apiClient : RMaaSApiClient W.
Variable defaultBranch : string.
Variable latestRelease : option GhGetReleaseResponse.
Variable nextGheInfo : RcGheInfo.
Variable successCb : option (SuccessCb W).

(** The first step fails: the error comes back as it is and nothing else is
    called. *)
Lemma createGheRc_getLatestCommit_rejects (st : St W) (e : ErrorValue) (w1 : W) :
  getLatestCommit apiClient defaultBranch (world st) = (inl e, w1) ->
  createGheRc apiClient defaultBranch latestRelease nextGheInfo successCb st
  = (Threw (Rejection e),
            {| world := w1;
               calls := (calls st ++ [CallGetLatestCommit defaultBranch])%list |}).
Proof.
  intros H1. start_run st. unfold createGheRc.
  step_await H1. reflexivity.
Qed.

(** C1, amended: when createRef rejects with an error whose body carries the
    message "Reference already exists" (the error's own message plays no
    part), the run ends with a ReleaseManagerAsAServiceError whose message
    names the candidate branch and the elided path .../tree/<branch>; only
    getLatestCommit and createRef have been called, so neither getComparison
    nor createRelease (nor the success callback) runs. *)
Theorem createGheRc_reference_already_exists
    (st : St W) (latestCommit : GhCommit) (w1 w2 : W)
    (e : ErrorValue) (b : ErrorBody) :
  getLatestCommit apiClient defaultBranch (world st) = (inr latestCommit, w1) ->
  createRef (createRc apiClient) (sha latestCommit) (rcBranch nextGheInfo) w1
    = (inl e, w2) ->
  err_body e = Some b ->
  body_message b = Some "Reference already exists" ->
  createGheRc apiClient defaultBranch latestRelease nextGheInfo successCb st
  = (Threw (ReleaseManagerAsAServiceError
              ("Branch " ++ Js.dq ++ rcBranch nextGheInfo ++ Js.dq ++
               " already exists: .../tree/" ++ rcBranch nextGheInfo)),
     {| world := w2;
        calls := (calls st ++
                  [CallGetLatestCommit defaultBranch;
                   CallCreateRef (sha latestCommit) (rcBranch nextGheInfo)])%list |}).
Proof.
  intros H1 H2 Hbody Hmsg. start_run st. unfold createGheRc.
  step_await H1.
  unfold tryCatch. step_await H2.
  unfold readBodyMessage, bind, ret, throw. rewrite Hbody, Hmsg. cbn.
  unfold conflictMessage. f_equal. f_equal. finish_calls.
Qed.

(** C9: when createRef rejects with an error that has no body, the run does
    not rethrow that error: it fails with the TypeError of reading [message]
    from the missing body; so a run that ends with the very error createRef
    rejected with had an error that carries a body. *)
Theorem createGheRc_bodyless_error_is_not_rethrown
    (st : St W) (latestCommit : GhCommit) (w1 w2 : W) (e : ErrorValue) :
  getLatestCommit apiClient defaultBranch (world st) = (inr latestCommit, w1) ->
  createRef (createRc apiClient) (sha latestCommit) (rcBranch nextGheInfo) w1
    = (inl e, w2) ->
  (err_body e = None ->
   createGheRc apiClient defaultBranch latestRelease nextGheInfo successCb st
   = (Threw (TypeErrorReadingProperty "message"),
      {| world := w2;
         calls := (calls st ++
                   [CallGetLatestCommit defaultBranch;
                    CallCreateRef (sha latestCommit) (rcBranch nextGheInfo)])%list |}))
  /\
  (fst (createGheRc apiClient defaultBranch latestRelease nextGheInfo successCb st)
   = Threw (Rejection e) ->
   exists b : ErrorBody, err_body e = Some b).
Proof.
  intros H1 H2.
  assert (Hnone : err_body e = None ->
    createGheRc apiClient defaultBranch latestRelease nextGheInfo successCb st
    = (Threw (TypeErrorReadingProperty "message"),
       {| world := w2;
          calls := (calls st ++
                    [CallGetLatestCommit defaultBranch;
                     CallCreateRef (sha latestCommit) (rcBranch nextGheInfo)])%list |})).
  { intros Hbody. start_run st. unfold createGheRc.
    step_await H1.
    unfold tryCatch. step_await H2.
    unfold readBodyMessage, bind, throw. rewrite Hbody.
    f_equal. f_equal. finish_calls. }
  split; [exact Hnone|].
  intros Hthrown.
  destruct (err_body e) as [b|] eqn:Hbody; [now exists b|].
  rewrite (Hnone eq_refl) in Hthrown. discriminate Hthrown.
Qed.

(** createRef rejects with an error that carries a body whose message is not
    the conflict message: the error comes back as it is. *)
Lemma createGheRc_createRef_rejects_with_body
    (st : St W) (latestCommit : GhCommit) (w1 w2 : W)
    (e : ErrorValue) (b : ErrorBody) :
  getLatestCommit apiClient defaultBranch (world st) = (inr latestCommit, w1) ->
  createRef (createRc apiClient) (sha latestCommit) (rcBranch nextGheInfo) w1
    = (inl e, w2) ->
  err_body e = Some b ->
  body_message b <> Some "Reference already exists" ->
  createGheRc apiClient defaultBranch latestRelease nextGheInfo successCb st
  = (Threw (Rejection e),
            {| world := w2;
               calls := (calls st ++
                         [CallGetLatestCommit defaultBranch;
                          CallCreateRef (sha latestCommit)
                                        (rcBranch nextGheInfo)])%list |}).
Proof.
  intros H1 H2 Hbody Hmsg. start_run st. unfold createGheRc.
  step_await H1.
  unfold tryCatch. step_await H2.
  unfold readBodyMessage, bind, ret, throw. rewrite Hbody.
  destruct (body_message b) as [m|].
  - destruct (String.eqb_spec m "Reference already exists") as [->|_].
    + now contradiction Hmsg.
    + f_equal. f_equal. finish_calls.
  - f_equal. f_equal. finish_calls.
Qed.

(** getComparison fails: the error comes back as it is; createRelease and the
    success callback are not called. *)
Lemma createGheRc_getComparison_rejects
    (st : St W) (latestCommit : GhCommit) (w1 w2 w3 : W)
    (createdRef : GhCreateReferenceResponse) (e : ErrorValue) :
  let previousReleaseBranch :=
    match latestRelease with
    | Some r => target_commitish r
    | None => defaultBranch
    end in
  getLatestCommit apiClient defaultBranch (world st) = (inr latestCommit, w1) ->
  createRef (createRc apiClient) (sha latestCommit) (rcBranch nextGheInfo) w1
    = (inr createdRef, w2) ->
  getComparison (createRc apiClient) previousReleaseBranch (rcBranch nextGheInfo) w2
    = (inl e, w3) ->
  createGheRc apiClient defaultBranch latestRelease nextGheInfo successCb st
  = (Threw (Rejection e),
            {| world := w3;
               calls := (calls st ++
                         [CallGetLatestCommit defaultBranch;
                          CallCreateRef (sha latestCommit) (rcBranch nextGheInfo);
                          CallGetComparison previousReleaseBranch
                                            (rcBranch nextGheInfo)])%list |}).
Proof.
  intros base H1 H2 H3. start_run st. unfold createGheRc.
  step_await H1.
  unfold tryCatch. step_await H2.
  step_await H3.
  f_equal. f_equal. finish_calls.
Qed.

(** createRelease fails: the error comes back as it is; the success callback
    is not called. *)
Lemma createGheRc_createRelease_rejects
    (st : St W) (latestCommit : GhCommit) (w1 w2 w3 w4 : W)
    (createdRef : GhCreateReferenceResponse) (comparison : GhComparison)
    (e : ErrorValue) :
  let previousReleaseBranch :=
    match latestRelease with
    | Some r => target_commitish r
    | None => defaultBranch
    end in
  getLatestCommit apiClient defaultBranch (world st) = (inr latestCommit, w1) ->
  createRef (createRc apiClient) (sha latestCommit) (rcBranch nextGheInfo) w1
    = (inr createdRef, w2) ->
  getComparison (createRc apiClient) previousReleaseBranch (rcBranch nextGheInfo) w2
    = (inr comparison, w3) ->
  createRelease (createRc apiClient) nextGheInfo
    (releaseBodyOf comparison createdRef) w3 = (inl e, w4) ->
  createGheRc apiClient defaultBranch latestRelease nextGheInfo successCb st
  = (Threw (Rejection e),
            {| world := w4;
               calls := (calls st ++
                         [CallGetLatestCommit defaultBranch;
                          CallCreateRef (sha latestCommit) (rcBranch nextGheInfo);
                          CallGetComparison previousReleaseBranch
                                            (rcBranch nextGheInfo);
                          CallCreateRelease nextGheInfo
                            (releaseBodyOf comparison createdRef)])%list |}).
Proof.
  intros base H1 H2 H3 H4. start_run st. unfold createGheRc.
  step_await H1.
  unfold tryCatch. step_await H2.
  step_await H3.
  step_await H4.
  f_equal. f_equal. finish_calls.
Qed.

(** The four facade calls succeed: the whole run, with or without a success
    callback. *)
Lemma createGheRc_run_of_succeeding_calls
    (st : St W) (latestCommit : GhCommit) (w1 w2 w3 w4 : W)
    (createdRef : GhCreateReferenceResponse) (comparison : GhComparison)
    (createReleaseResponse : GhCreateReleaseResponse) :
  let previousReleaseBranch :=
    match latestRelease with
    | Some r => target_commitish r
    | None => defaultBranch
    end in
  let releaseBody := releaseBodyOf comparison createdRef in
  getLatestCommit apiClient defaultBranch (world st) = (inr latestCommit, w1) ->
  createRef (createRc apiClient) (sha latestCommit) (rcBranch nextGheInfo) w1
    = (inr createdRef, w2) ->
  getComparison (createRc apiClient) previousReleaseBranch (rcBranch nextGheInfo) w2
    = (inr comparison, w3) ->
  createRelease (createRc apiClient) nextGheInfo releaseBody w3
    = (inr createReleaseResponse, w4) ->
  let responseSteps :=
    [ {| message := "Fetched latest commit from " ++ Js.dq ++ defaultBranch ++ Js.dq;
         secondaryMessage :=
           Some ("with message " ++ Js.dq ++ commit_message (commit latestCommit)
                 ++ Js.dq);
         link := Some (commit_html_url latestCommit);
         icon := None |};
      {| message := "Cut Release Branch";
         secondaryMessage := Some ("with ref " ++ Js.dq ++ ref createdRef ++ Js.dq);
         link := None;
         icon := None |};
      {| message := "Fetched commit comparision";
         secondaryMessage :=
           Some (previousReleaseBranch ++ "..." ++ rcBranch nextGheInfo);
         link := Some (comparison_html_url comparison);
         icon := None |};
      {| message := "Created Release Candidate " ++ Js.dq ++
                    release_name createReleaseResponse ++ Js.dq;
         secondaryMessage :=
           Some ("with tag " ++ Js.dq ++ rcReleaseTag nextGheInfo ++ Js.dq);
         link := Some (release_html_url createReleaseResponse);
         icon := None |} ] in
  let facadeCalls :=
    [ CallGetLatestCommit defaultBranch;
      CallCreateRef (sha latestCommit) (rcBranch nextGheInfo);
      CallGetComparison previousReleaseBranch (rcBranch nextGheInfo);
      CallCreateRelease nextGheInfo releaseBody ] in
  let args :=
    {| gitHubReleaseUrl := release_html_url createReleaseResponse;
       gitHubReleaseName := release_name createReleaseResponse;
       comparisonUrl := comparison_html_url comparison;
       previousTag := option_map tag_name latestRelease;
       createdTag := release_tag_name createReleaseResponse |} in
  length responseSteps = 4 /\
  match successCb with
  | None =>
      createGheRc apiClient defaultBranch latestRelease nextGheInfo successCb st
      = (Returned responseSteps,
         {| world := w4; calls := (calls st ++ facadeCalls)%list |})
  | Some cb =>
      createGheRc apiClient defaultBranch latestRelease nextGheInfo successCb st
      = (match fst (cb args w4) with
         | inr _ => Returned responseSteps
         | inl e => Threw (Rejection e)
         end,
         {| world := snd (cb args w4);
            calls := (calls st ++ facadeCalls ++ [CallSuccessCb args])%list |})
  end.
Proof.
  intros base releaseBody H1 H2 H3 H4 steps facadeCalls args.
  split; [reflexivity|].
  start_run st.
  destruct successCb as [cb|]; unfold createGheRc;
    step_await H1; unfold tryCatch; step_await H2; step_await H3; step_await H4.
  - fold args.
    destruct (cb args w4) as [[e|[]] w5] eqn:Hcb; step_await Hcb; cbn [fst snd].
    + f_equal. f_equal. unfold facadeCalls. finish_calls.
    + unfold ret. f_equal. f_equal. unfold facadeCalls. finish_calls.
  - unfold bind, ret. f_equal. f_equal. unfold facadeCalls. finish_calls.
Qed.

(** C2: when the four facade calls succeed, the run makes exactly those four
    calls in order and, when a success callback is supplied, calls it once
    after them with the created release's URL, name and tag, the comparison
    URL and the previous tag if any; the run returns exactly four steps
    (fetched latest commit, created ref, commit comparison, created release)
    unless the callback itself rejects, whose error is then thrown. *)
Theorem createGheRc_all_calls_succeed
    (st : St W) (latestCommit : GhCommit) (w1 w2 w3 w4 : W)
    (createdRef : GhCreateReferenceResponse) (comparison : GhComparison)
    (createReleaseResponse : GhCreateReleaseResponse) :
  let previousReleaseBranch :=
    match latestRelease with
    | Some r => target_commitish r
    | None => defaultBranch
    end in
  let releaseBody := releaseBodyOf comparison createdRef in
  getLatestCommit apiClient defaultBranch (world st) = (inr latestCommit, w1) ->
  createRef (createRc apiClient) (sha latestCommit) (rcBranch nextGheInfo) w1
    = (inr createdRef, w2) ->
  getComparison (createRc apiClient) previousReleaseBranch (rcBranch nextGheInfo) w2
    = (inr comparison, w3) ->
  createRelease (createRc apiClient) nextGheInfo releaseBody w3
    = (inr createReleaseResponse, w4) ->
  let responseSteps :=
    [ {| message := "Fetched latest commit from " ++ Js.dq ++ defaultBranch ++ Js.dq;
         secondaryMessage :=
           Some ("with message " ++ Js.dq ++ commit_message (commit latestCommit)
                 ++ Js.dq);
         link := Some (commit_html_url latestCommit);
         icon := None |};
      {| message := "Cut Release Branch";
         secondaryMessage := Some ("with ref " ++ Js.dq ++ ref createdRef ++ Js.dq);
         link := None;
         icon := None |};
      {| message := "Fetched commit comparision";
         secondaryMessage :=
           Some (previousReleaseBranch ++ "..." ++ rcBranch nextGheInfo);
         link := Some (comparison_html_url comparison);
         icon := None |};
      {| message := "Created Release Candidate " ++ Js.dq ++
                    release_name createReleaseResponse ++ Js.dq;
         secondaryMessage :=
           Some ("with tag " ++ Js.dq ++ rcReleaseTag nextGheInfo ++ Js.dq);
         link := Some (release_html_url createReleaseResponse);
         icon := None |} ] in
  let facadeCalls :=
    [ CallGetLatestCommit defaultBranch;
      CallCreateRef (sha latestCommit) (rcBranch nextGheInfo);
      CallGetComparison previousReleaseBranch (rcBranch nextGheInfo);
      CallCreateRelease nextGheInfo releaseBody ] in
  let args :=
    {| gitHubReleaseUrl := release_html_url createReleaseResponse;
       gitHubReleaseName := release_name createReleaseResponse;
       comparisonUrl := comparison_html_url comparison;
       previousTag := option_map tag_name latestRelease;
       createdTag := release_tag_name createReleaseResponse |} in
  length responseSteps = 4 /\
  match successCb with
  | None =>
      createGheRc apiClient defaultBranch latestRelease nextGheInfo successCb st
      = (Returned responseSteps,
         {| world := w4; calls := (calls st ++ facadeCalls)%list |})
  | Some cb =>
      createGheRc apiClient defaultBranch latestRelease nextGheInfo successCb st
      = (match fst (cb args w4) with
         | inr _ => Returned responseSteps
         | inl e => Threw (Rejection e)
         end,
         {| world := snd (cb args w4);
            calls := (calls st ++ facadeCalls ++ [CallSuccessCb args])%list |})
  end.
Proof.
  intros base releaseBody H1 H2 H3 H4.
  exact (createGheRc_run_of_succeeding_calls st latestCommit w1 w2 w3 w4
           createdRef comparison createReleaseResponse H1 H2 H3 H4).
Qed.

(** C10: the comparison is requested from the latest release's
    target_commitish when there is a latest release and from the default
    branch when there is none, up to the candidate branch; and the body
    handed to createRelease is built from that comparison's URL, its ahead-by
    count and the created ref. *)
Theorem createGheRc_comparison_base_and_release_body
    (st : St W) (latestCommit : GhCommit) (w1 w2 w3 : W)
    (createdRef : GhCreateReferenceResponse) (comparison : GhComparison) :
  let previousReleaseBranch :=
    match latestRelease with
    | Some r => target_commitish r
    | None => defaultBranch
    end in
  let releaseBody :=
    "**Compare** " ++ comparison_html_url comparison ++ Js.nl ++ Js.nl ++
    "**Ahead by** " ++ Js.numberToString (ahead_by comparison) ++ " commits" ++
    Js.nl ++ Js.nl ++
    "**Release branch** " ++ ref createdRef ++ Js.nl ++ Js.nl ++
    "---" ++ Js.nl ++ Js.nl in
  getLatestCommit apiClient defaultBranch (world st) = (inr latestCommit, w1) ->
  createRef (createRc apiClient) (sha latestCommit) (rcBranch nextGheInfo) w1
    = (inr createdRef, w2) ->
  getComparison (createRc apiClient) previousReleaseBranch (rcBranch nextGheInfo) w2
    = (inr comparison, w3) ->
  exists later : list Call,
    calls (snd (createGheRc apiClient defaultBranch latestRelease nextGheInfo
                  successCb st))
    = (calls st ++
       [CallGetLatestCommit defaultBranch;
        CallCreateRef (sha latestCommit) (rcBranch nextGheInfo);
        CallGetComparison previousReleaseBranch (rcBranch nextGheInfo);
        CallCreateRelease nextGheInfo releaseBody] ++ later)%list.
Proof.
  intros base releaseBody H1 H2 H3.
  assert (Hbody : releaseBody = releaseBodyOf comparison createdRef).
  { reflexivity. }
  destruct (createRelease (createRc apiClient) nextGheInfo
              (releaseBodyOf comparison createdRef) w3) as [[e|response] w4] eqn:H4.
  - exists []. rewrite Hbody.
    pose proof (createGheRc_createRelease_rejects st latestCommit w1 w2 w3 w4
                  createdRef comparison e H1 H2 H3 H4) as Hrun.
    rewrite Hrun. reflexivity.
  - pose proof (createGheRc_run_of_succeeding_calls st latestCommit w1 w2 w3 w4
                  createdRef comparison response H1 H2 H3 H4) as [_ Hrun].
    rewrite Hbody.
    destruct successCb as [cb|]; rewrite Hrun; cbn [snd calls].
    + eexists. reflexivity.
    + exists []. reflexivity.
Qed.

End CreateRcProperties.

(** C3 at a failing input: createRef rejects with a body-less error (a failed
    fetch); the claim has that error propagated unchanged, the run throws the
    TypeError of reading [message] from the missing body instead. *)
Theorem createGheRc_failed_fetch_is_replaced :
  CreateRc.createGheRc (Fixtures.rejectingCreateRef Fixtures.failedToFetch)
    "master" None Fixtures.firstRc None Fixtures.start
  = (Threw (TypeErrorReadingProperty "message"),
     {| Effects.world := 2;
        Effects.calls := [CallGetLatestCommit "master";
                          CallCreateRef "a1b2c3d" "rc/0.0.1"] |})
  /\ Threw (A := list ResponseStep) (TypeErrorReadingProperty "message")
     <> Threw (Rejection Fixtures.failedToFetch).
Proof.
  split; [reflexivity | discriminate].
Qed.

Lemma createGheRc_reference_already_exists_on_stub :
  CreateRc.getLatestCommit Fixtures.conflictingApi "master" 0 = (inr Fixtures.stubCommit, 1) /\
  CreateRc.createRef (CreateRc.createRc Fixtures.conflictingApi) "a1b2c3d" "rc/0.0.1" 1
    = (inl Fixtures.referenceAlreadyExists, 2) /\
  CreateRc.createGheRc Fixtures.conflictingApi "master" None Fixtures.firstRc
    (Some Fixtures.resolvingCb) Fixtures.start
  = (Threw (ReleaseManagerAsAServiceError
              ("Branch " ++ Js.dq ++ "rc/0.0.1" ++ Js.dq ++
               " already exists: .../tree/rc/0.0.1")),
     {| Effects.world := 2;
        Effects.calls := [CallGetLatestCommit "master";
                          CallCreateRef "a1b2c3d" "rc/0.0.1"] |}).
Proof.
  split; [reflexivity|]. split; [reflexivity|].
  exact (createGheRc_reference_already_exists Fixtures.conflictingApi "master" None
           Fixtures.firstRc (Some Fixtures.resolvingCb) Fixtures.start
           Fixtures.stubCommit 1 2 Fixtures.referenceAlreadyExists
           {| body_message := Some "Reference already exists" |}
           eq_refl eq_refl eq_refl eq_refl).
Defined.

(** C1, as stated, fails: an error whose message is "Reference already exists"
    does not make the run end with the conflict error.  When the body of the
    error carries another message the error is rethrown as it is, and when the
    error has no body the run fails while reading it; in neither case is a
    ReleaseManagerAsAServiceError thrown.  And where the conflict error is
    thrown, what follows the branch name is the elided path, not an address. *)
Lemma createGheRc_message_alone_is_no_conflict :
  err_message MoreFixtures.misleadingValidationError = "Reference already exists" /\
  err_message MoreFixtures.misleadingBodylessError = "Reference already exists" /\
  CreateRc.createGheRc
    (Fixtures.rejectingCreateRef MoreFixtures.misleadingValidationError)
    "master" None Fixtures.firstRc None Fixtures.start
  = (Threw (Rejection MoreFixtures.misleadingValidationError),
     {| Effects.world := 2;
        Effects.calls := [CallGetLatestCommit "master";
                          CallCreateRef "a1b2c3d" "rc/0.0.1"] |}) /\
  CreateRc.createGheRc
    (Fixtures.rejectingCreateRef MoreFixtures.misleadingBodylessError)
    "master" None Fixtures.firstRc None Fixtures.start
  = (Threw (TypeErrorReadingProperty "message"),
     {| Effects.world := 2;
        Effects.calls := [CallGetLatestCommit "master";
                          CallCreateRef "a1b2c3d" "rc/0.0.1"] |}) /\
  ~ (exists conflict : string,
       fst (CreateRc.createGheRc
              (Fixtures.rejectingCreateRef MoreFixtures.misleadingValidationError)
              "master" None Fixtures.firstRc None Fixtures.start)
       = Threw (ReleaseManagerAsAServiceError conflict)) /\
  ~ (exists conflict : string,
       fst (CreateRc.createGheRc
              (Fixtures.rejectingCreateRef MoreFixtures.misleadingBodylessError)
              "master" None Fixtures.firstRc None Fixtures.start)
       = Threw (ReleaseManagerAsAServiceError conflict)) /\
  fst (CreateRc.createGheRc Fixtures.conflictingApi "master" None Fixtures.firstRc
         None Fixtures.start)
  = Threw (ReleaseManagerAsAServiceError
             ("Branch " ++ String "034"%char ("rc/0.0.1" ++ String "034"%char
              " already exists: .../tree/rc/0.0.1"))).
Proof.
  repeat (split; [reflexivity|]).
  split; [intros [conflict H]; discriminate H|].
  split; [intros [conflict H]; discriminate H|].
  reflexivity.
Qed.

Lemma createGheRc_bodyless_error_on_stub :
  CreateRc.getLatestCommit Fixtures.unreachableApi "master" 0 = (inr Fixtures.stubCommit, 1) /\
  CreateRc.createRef (CreateRc.createRc Fixtures.unreachableApi) "a1b2c3d" "rc/0.0.1" 1
    = (inl Fixtures.failedToFetch, 2) /\
  err_body Fixtures.failedToFetch = None /\
  CreateRc.createGheRc Fixtures.unreachableApi "master" None Fixtures.firstRc None Fixtures.start
  = (Threw (TypeErrorReadingProperty "message"),
     {| Effects.world := 2;
        Effects.calls := [CallGetLatestCommit "master";
                          CallCreateRef "a1b2c3d" "rc/0.0.1"] |}).
Proof.
  split; [reflexivity|]. split; [reflexivity|]. split; [reflexivity|].
  exact (proj1 (createGheRc_bodyless_error_is_not_rethrown Fixtures.unreachableApi "master" None
                  Fixtures.firstRc None Fixtures.start
                  Fixtures.stubCommit 1 2 Fixtures.failedToFetch
                  eq_refl eq_refl) eq_refl).
Defined.

Lemma createGheRc_all_calls_succeed_on_stub :
  CreateRc.getLatestCommit Fixtures.succeedingApi "master" 0 = (inr Fixtures.stubCommit, 1) /\
  CreateRc.createRef (CreateRc.createRc Fixtures.succeedingApi) "a1b2c3d" "rc/0.0.1" 1
    = (inr Fixtures.stubCreatedRef, 2) /\
  CreateRc.getComparison (CreateRc.createRc Fixtures.succeedingApi) "master" "rc/0.0.1" 2
    = (inr Fixtures.stubComparison, 3) /\
  CreateRc.createRelease (CreateRc.createRc Fixtures.succeedingApi) Fixtures.firstRc
    (CreateRc.releaseBodyOf Fixtures.stubComparison Fixtures.stubCreatedRef) 3
    = (inr Fixtures.stubRelease, 4) /\
  exists steps : list ResponseStep,
    CreateRc.createGheRc Fixtures.succeedingApi "master" None Fixtures.firstRc
      (Some Fixtures.resolvingCb) Fixtures.start
    = (Returned steps,
       {| Effects.world := 4;
          Effects.calls :=
            [CallGetLatestCommit "master";
             CallCreateRef "a1b2c3d" "rc/0.0.1";
             CallGetComparison "master" "rc/0.0.1";
             CallCreateRelease Fixtures.firstRc
               (CreateRc.releaseBodyOf Fixtures.stubComparison Fixtures.stubCreatedRef);
             CallSuccessCb
               {| gitHubReleaseUrl := release_html_url Fixtures.stubRelease;
                  gitHubReleaseName := "Version 0.0.1";
                  comparisonUrl := comparison_html_url Fixtures.stubComparison;
                  previousTag := None;
                  createdTag := "rc-0.0.1" |}] |}) /\
    length steps = 4 /\
    map message steps
    = ["Fetched latest commit from " ++ Js.dq ++ "master" ++ Js.dq;
       "Cut Release Branch";
       "Fetched commit comparision";
       "Created Release Candidate " ++ Js.dq ++ "Version 0.0.1" ++ Js.dq].
Proof.
  repeat (split; [reflexivity|]).
  eexists. split.
  - exact (proj2 (createGheRc_all_calls_succeed Fixtures.succeedingApi "master" None
                    Fixtures.firstRc (Some Fixtures.resolvingCb) Fixtures.start
                    Fixtures.stubCommit 1 2 3 4 Fixtures.stubCreatedRef Fixtures.stubComparison
                    Fixtures.stubRelease eq_refl eq_refl eq_refl eq_refl)).
  - split; reflexivity.
Defined.

Lemma createGheRc_comparison_from_default_branch_on_stub :
  CreateRc.getLatestCommit Fixtures.succeedingApi "master" 0 = (inr Fixtures.stubCommit, 1) /\
  CreateRc.createRef (CreateRc.createRc Fixtures.succeedingApi) "a1b2c3d" "rc/0.0.1" 1
    = (inr Fixtures.stubCreatedRef, 2) /\
  CreateRc.getComparison (CreateRc.createRc Fixtures.succeedingApi) "master" "rc/0.0.1" 2
    = (inr Fixtures.stubComparison, 3) /\
  exists later : list Call,
    Effects.calls
      (snd (CreateRc.createGheRc Fixtures.succeedingApi "master" None Fixtures.firstRc None
              Fixtures.start))
    = ([CallGetLatestCommit "master";
        CallCreateRef "a1b2c3d" "rc/0.0.1";
        CallGetComparison "master" "rc/0.0.1";
        CallCreateRelease Fixtures.firstRc
          ("**Compare** " ++
           "https://ghe.example/erikengervall/playground/compare/master...rc/0.0.1" ++
           Js.nl ++ Js.nl ++
           "**Ahead by** 3 commits" ++ Js.nl ++ Js.nl ++
           "**Release branch** refs/heads/rc/0.0.1" ++ Js.nl ++ Js.nl ++
           "---" ++ Js.nl ++ Js.nl)] ++ later)%list.
Proof.
  repeat (split; [reflexivity|]).
  exact (createGheRc_comparison_base_and_release_body Fixtures.succeedingApi "master" None
           Fixtures.firstRc None Fixtures.start
           Fixtures.stubCommit 1 2 3 Fixtures.stubCreatedRef Fixtures.stubComparison
           eq_refl eq_refl eq_refl).
Defined.

(** ** Promote-RC orchestrator *)

(** C7: with no latest release, Promote-RC signals "nothing to promote" and
    leaves the record of collaborator calls, and the world behind them, as they
    were: no facade method is invoked. *)
Theorem promoteRc_nothing_to_promote :
  forall (W : Type) (apiClient : PromoteRc.PromoteRcApi W)
         (confirmed : bool) (mainline : option string) (st : Effects.St W),
    PromoteRc.promoteRc apiClient None confirmed mainline st
    = (Threw (PreconditionError "nothing to promote"), st).
Proof.
  reflexivity.
Qed.

(** With a release candidate at hand the first thing Promote-RC does is a
    remote call: the precondition check is what keeps the facade untouched. *)
Lemma promoteRc_release_candidate_calls_facade :
  forall (W : Type) (apiClient : PromoteRc.PromoteRcApi W)
         (rcRelease : GhGetReleaseResponse) (confirmed : bool)
         (mainline : option string) (st : Effects.St W),
    prerelease rcRelease = true ->
    exists later : list Call,
      Effects.calls
        (snd (PromoteRc.promoteRc apiClient (Some rcRelease) confirmed mainline st))
      = (Effects.calls st ++ CallMarkReleaseAsFull rcRelease :: later)%list.
Proof.
  intros W apiClient rcRelease confirmed mainline [w0 cs0] Hrc.
  unfold PromoteRc.promoteRc. rewrite Hrc. cbn [negb andb].
  unfold Effects.bind at 1.
  destruct (PromoteRc.markReleaseAsFull apiClient rcRelease w0) as [[e|promoted] w1] eqn:H1.
  - rewrite (await_rejects _ _ _ _ _ _ H1). now exists [].
  - rewrite (await_resolves _ _ _ _ _ _ H1).
    destruct mainline as [branch|].
    + unfold Effects.bind at 1.
      destruct (PromoteRc.mergeIntoMainline apiClient branch w1) as [[e|[]] w2] eqn:H2.
      * rewrite (await_rejects _ _ _ _ _ _ H2). cbn.
        eexists. rewrite <- app_assoc. reflexivity.
      * rewrite (await_resolves _ _ _ _ _ _ H2). cbn.
        eexists. rewrite <- app_assoc. reflexivity.
    + now exists [].
Qed.

(** ** Progress stream *)

Section EventStreamProperties.
Import EventStream.

Lemma write_after_end (chunk : string) (r : Response) :
  ended r = true -> write chunk r = r.
Proof. unfold write. now intros ->. Qed.

Lemma send_after_end (type : EventType) (data : Data) (r : Response) :
  ended r = true ->
  body (send type data r) = body r /\ ended (send type data r) = true.
Proof.
  intros Hended. unfold send. rewrite (write_after_end _ _ Hended).
  destruct (hasFlush r); cbn; auto.
Qed.

Lemma send_while_open (type : EventType) (data : Data) (r : Response) :
  ended r = false ->
  body (send type data r) = (body r ++ [frame type data])%list /\
  ended (send type data r) = false.
Proof.
  intros Hopen. unfold send, write. rewrite Hopen. cbn.
  destruct (hasFlush r); cbn; auto.
Qed.

Variables (res0 res : Response) (h : DocsSynchronizerSyncOpts).
Hypothesis Hcreated : createEventStream res0 = Some (res, h).

Lemma created_callbacks :
  log h = (fun data r => send EventLog (DataString data) r) /\
  error h = (fun e r => end_ (send EventError (DataString (err_message e)) r)) /\
  finish h = (fun result r => end_ (send EventFinish (DataResult result) r)).
Proof.
  unfold createEventStream in Hcreated.
  destruct (writeHead _ _ res0); [|discriminate].
  injection Hcreated as _ <-. auto.
Qed.

Lemma perform_after_end (a : Action) (r : Response) :
  ended r = true ->
  body (perform h a r) = body r /\ ended (perform h a r) = true.
Proof.
  intros Hended.
  destruct created_callbacks as (Hlog & Herror & Hfinish).
  destruct a as [data|e|result|]; cbn [perform].
  - rewrite Hlog. now apply send_after_end.
  - rewrite Herror. cbn [end_ body ended].
    split; [now apply send_after_end | reflexivity].
  - rewrite Hfinish. cbn [end_ body ended].
    split; [now apply send_after_end | reflexivity].
  - destruct (endsOnSocketClose r); cbn; auto.
Qed.

Lemma performAll_after_end (actions : list Action) :
  forall r : Response,
    ended r = true ->
    body (performAll h actions r) = body r /\
    ended (performAll h actions r) = true.
Proof.
  induction actions as [|a actions IH]; intros r Hended; cbn.
  - auto.
  - destruct (perform_after_end a r Hended) as [Hbody Hstill].
    destruct (IH _ Hstill) as [Hbody' Hstill'].
    fold (performAll h actions (perform h a r)).
    split; [congruence | assumption].
Qed.

Lemma perform_terminal_ends (a : Action) (r : Response) :
  isTerminal a = true -> ended (perform h a r) = true.
Proof.
  destruct created_callbacks as (_ & Herror & Hfinish).
  destruct a; cbn; try discriminate; intros _.
  - now rewrite Herror.
  - now rewrite Hfinish.
Qed.

Lemma app_quote_tail (q tail : string) :
  (q ++ Js.dq) ++ tail = q ++ String "034"%char tail.
Proof. induction q as [|c q IH]; cbn; [reflexivity | now rewrite IH]. Qed.

Lemma frame_of_string (type : EventType) (s : string) :
  frame type (DataString s)
  = "event: " ++ eventName type ++
    String "010"%char
      ("data: " ++
       String "034"%char
         (JSON.quoteCodeUnits s ++
          String "034"%char (String "010"%char (String "010"%char EmptyString)))).
Proof.
  unfold frame, stringify, JSON.stringifyString. cbn.
  rewrite app_quote_tail. reflexivity.
Qed.

Lemma quoteCodeUnits_plain (s : string) :
  Router.every Framing.isPlain s = true -> JSON.quoteCodeUnits s = s.
Proof.
  induction s as [|c s IH]; simpl; intros Hs; [reflexivity|].
  apply andb_prop in Hs as [Hc Hs]. rewrite (IH Hs).
  destruct c as [[] [] [] [] [] [] [] []]; try discriminate Hc; reflexivity.
Qed.

(** C8: of the three events the stream carries, error and finish are the ones
    that close it.  On an open response error writes the chunk
    event: error / data: <the message as a JSON string> / blank line and ends
    the response; finish writes event: finish / data: {"updated":true} or
    {"updated":false} / blank line and ends it; log writes
    event: log / data: <the line as a JSON string> / blank line and leaves the
    response open.  A JSON string is the text between double quotes, verbatim
    when it holds only characters from the space on other than the double
    quote and the backslash.  Once error or finish has been called, whatever
    is called afterwards writes nothing more to the response, which stays
    ended. *)
Theorem createEventStream_terminal_events :
  (forall (e : ErrorValue) (r : Response),
      ended r = false ->
      body (error h e r)
      = (body r ++
         [("event: error" ++
          String "010"%char
            ("data: " ++
             String "034"%char
               (JSON.quoteCodeUnits (err_message e) ++
                String "034"%char
                  (String "010"%char (String "010"%char EmptyString)))))%string])%list /\
      ended (error h e r) = true) /\
  (forall (result : SyncResult) (r : Response),
      ended r = false ->
      body (finish h result r)
      = (body r ++
         [("event: finish" ++
          String "010"%char
            ("data: {" ++
             String "034"%char
               ("updated" ++
                String "034"%char
                  (":" ++
                   (if updated result then "true" else "false") ++
                   "}" ++
                   String "010"%char (String "010"%char EmptyString)))))%string])%list /\
      ended (finish h result r) = true) /\
  (forall (data : string) (r : Response),
      ended r = false ->
      body (log h data r)
      = (body r ++
         [("event: log" ++
          String "010"%char
            ("data: " ++
             String "034"%char
               (JSON.quoteCodeUnits data ++
                String "034"%char
                  (String "010"%char (String "010"%char EmptyString)))))%string])%list /\
      ended (log h data r) = false) /\
  (forall s : string,
      Router.every Framing.isPlain s = true -> JSON.quoteCodeUnits s = s) /\
  (forall (before after : list Action) (a : Action) (r : Response),
      isTerminal a = true ->
      body (performAll h (before ++ a :: after) r)
      = body (performAll h (before ++ [a]) r) /\
      ended (performAll h (before ++ a :: after) r) = true).
Proof.
  destruct created_callbacks as (Hlog & Herror & Hfinish).
  split; [|split; [|split; [|split; [exact quoteCodeUnits_plain|]]]].
  - intros e r Hopen. rewrite Herror. cbn [end_ body ended].
    destruct (send_while_open EventError (DataString (err_message e)) r Hopen)
      as [-> _].
    rewrite frame_of_string. split; reflexivity.
  - intros result r Hopen. rewrite Hfinish. cbn [end_ body ended].
    destruct (send_while_open EventFinish (DataResult result) r Hopen) as [-> _].
    split; [|reflexivity].
    destruct result as [[|]]; reflexivity.
  - intros data r Hopen. rewrite Hlog.
    destruct (send_while_open EventLog (DataString data) r Hopen) as [-> ->].
    rewrite frame_of_string. split; reflexivity.
  - intros before after a r Hterminal.
    unfold performAll. rewrite !fold_left_app. cbn [fold_left].
    fold (performAll h before r).
    fold (performAll h after (perform h a (performAll h before r))).
    now apply performAll_after_end, perform_terminal_ends.
Qed.

End EventStreamProperties.

Lemma createEventStream_late_events_on_fresh_response :
  exists (res : EventStream.Response) (h : EventStream.DocsSynchronizerSyncOpts),
    EventStream.createEventStream Fixtures.freshResponse = Some (res, h) /\
    EventStream.ended res = false /\
    EventStream.body
      (EventStream.performAll h
         [EventStream.Log "Building docs";
          EventStream.Finish {| EventStream.updated := true |};
          EventStream.Log "late";
          EventStream.Error Fixtures.failedToFetch] res)
    = ["event: log" ++
       String "010"%char
         ("data: " ++
          String "034"%char
            ("Building docs" ++
             String "034"%char (String "010"%char (String "010"%char EmptyString))));
       "event: finish" ++
       String "010"%char
         ("data: {" ++
          String "034"%char
            ("updated" ++
             String "034"%char
               (":true}" ++ String "010"%char (String "010"%char EmptyString))))] /\
    EventStream.ended
      (EventStream.performAll h
         [EventStream.Log "Building docs";
          EventStream.Finish {| EventStream.updated := true |};
          EventStream.Log "late";
          EventStream.Error Fixtures.failedToFetch] res)
    = true /\
    EventStream.body (EventStream.error h MoreFixtures.twoLineError res)
    = ["event: error" ++
       String "010"%char
         ("data: " ++
          String "034"%char
            ("Build failed" ++
             String "092"%char
               ("nsee log" ++
                String "034"%char
                  (String "010"%char (String "010"%char EmptyString)))))] /\
    EventStream.ended (EventStream.error h MoreFixtures.twoLineError res) = true.
Proof.
  eexists. eexists. split; [reflexivity|]. split; [reflexivity|].
  destruct (createEventStream_terminal_events Fixtures.freshResponse _ _ eq_refl)
    as (Herror & _ & _ & _ & Hcut).
  split.
  { refine (eq_trans
              (proj1 (Hcut [EventStream.Log "Building docs"]
                           [EventStream.Log "late";
                            EventStream.Error Fixtures.failedToFetch]
                           (EventStream.Finish {| EventStream.updated := true |})
                           _ eq_refl))
              eq_refl). }
  split.
  { exact (proj2 (Hcut [EventStream.Log "Building docs"]
                       [EventStream.Log "late";
                        EventStream.Error Fixtures.failedToFetch]
                       (EventStream.Finish {| EventStream.updated := true |})
                       _ eq_refl)). }
  match goal with
  | |- EventStream.body (EventStream.error _ _ ?r) = _ /\ _ =>
      exact (Herror MoreFixtures.twoLineError r eq_refl)
  end.
Defined.

(** * Further properties of the sources *)

(** ** The bearer token of a request (router.ts, [getBearerToken]) *)

Section StringFacts.
Import Router.

Lemma string_app_assoc (a b c : string) : (a ++ b) ++ c = a ++ b ++ c.
Proof. induction a as [|x a IH]; simpl; [reflexivity | now rewrite IH]. Qed.

Lemma string_app_nil (a : string) : a ++ EmptyString = a.
Proof. induction a as [|x a IH]; simpl; [reflexivity | now rewrite IH]. Qed.

Lemma every_app (p : ascii -> bool) (a b : string) :
  every p (a ++ b) = every p a && every p b.
Proof.
  induction a as [|x a IH]; simpl; [reflexivity|].
  now rewrite IH, andb_assoc.
Qed.

Lemma every_takeWhile (p : ascii -> bool) (s : string) :
  every p (takeWhile p s) = true.
Proof.
  induction s as [|c s IH]; simpl; [reflexivity|].
  destruct (p c) eqn:Hc; simpl; [now rewrite Hc | reflexivity].
Qed.

Lemma takeWhile_prefix (p : ascii -> bool) (s : string) :
  exists after : string, s = takeWhile p s ++ after.
Proof.
  induction s as [|c s [after IH]]; simpl.
  - now exists EmptyString.
  - destruct (p c).
    + exists after. simpl. now rewrite <- IH.
    + now exists (String c s).
Qed.

Lemma dropWhile_suffix (p : ascii -> bool) (s : string) :
  exists before : string, s = before ++ dropWhile p s.
Proof.
  induction s as [|c s [before IH]]; simpl.
  - now exists EmptyString.
  - destruct (p c).
    + exists (String c before). simpl. now rewrite <- IH.
    + now exists EmptyString.
Qed.

Lemma matchLiteral_suffix (pattern : string) :
  forall s rest : string,
    matchLiteral pattern s = Some rest ->
    exists before : string,
      s = before ++ rest /\ String.length before = String.length pattern.
Proof.
  induction pattern as [|x pattern IH]; intros s rest H; simpl in H.
  - injection H as <-. now exists EmptyString.
  - destruct s as [|c s]; [discriminate|].
    destruct (Ascii.eqb (toUpper x) (toUpper c)); [|discriminate].
    destruct (IH _ _ H) as [before [-> Hlen]].
    exists (String c before). simpl. now rewrite Hlen.
Qed.

Lemma matchLiteral_app (pattern : string) :
  forall s after : string,
    matchLiteral pattern s = Some EmptyString ->
    matchLiteral pattern (s ++ after) = Some after.
Proof.
  induction pattern as [|x pattern IH]; intros s after H; simpl in *.
  - injection H as ->. reflexivity.
  - destruct s as [|c s]; [discriminate|]. simpl.
    destruct (Ascii.eqb (toUpper x) (toUpper c)); [|discriminate].
    now apply IH.
Qed.

Lemma takeWhile_app (p : ascii -> bool) (a rest : string) :
  every p a = true -> stopsAt p rest -> takeWhile p (a ++ rest) = a.
Proof.
  induction a as [|x a IH]; simpl; intros Ha Hrest.
  - destruct rest as [|c rest]; simpl in *; [reflexivity | now rewrite Hrest].
  - apply andb_prop in Ha as [Hx Ha]. rewrite Hx. now rewrite IH.
Qed.

Lemma dropWhile_app (p : ascii -> bool) (a rest : string) :
  every p a = true -> stopsAt p rest -> dropWhile p (a ++ rest) = rest.
Proof.
  induction a as [|x a IH]; simpl; intros Ha Hrest.
  - destruct rest as [|c rest]; simpl in *; [reflexivity | now rewrite Hrest].
  - apply andb_prop in Ha as [Hx Ha]. rewrite Hx. now apply IH.
Qed.

End StringFacts.

Section BearerToken.
Import Router.

Lemma matchAtStart_shape (s token : string) :
  matchAtStart s = Some token ->
  token <> EmptyString /\
  every isNonWhiteSpace token = true /\
  exists before after : string, s = before ++ token ++ after.
Proof.
  unfold matchAtStart. intros H.
  destruct (matchLiteral "Bearer" s) as [afterScheme|] eqn:Hscheme; [|discriminate].
  destruct afterScheme as [|c rest]; [discriminate|].
  destruct (isWhiteSpace c); [|discriminate].
  destruct (takeWhile isNonWhiteSpace (dropWhile isWhiteSpace rest))
    as [|t token'] eqn:Htoken; [discriminate|].
  injection H as <-.
  split; [discriminate|]. split.
  - rewrite <- Htoken. apply every_takeWhile.
  - destruct (matchLiteral_suffix _ _ _ Hscheme) as [b1 [-> _]].
    destruct (dropWhile_suffix isWhiteSpace rest) as [b2 Hb2].
    destruct (takeWhile_prefix isNonWhiteSpace (dropWhile isWhiteSpace rest))
      as [after Hafter].
    rewrite Htoken in Hafter. rewrite Hafter in Hb2.
    exists (b1 ++ String c b2), after.
    rewrite Hb2, string_app_assoc. reflexivity.
Qed.

Lemma matchAtStart_needs_white_space (s token : string) :
  matchAtStart s = Some token -> every isNonWhiteSpace s = false.
Proof.
  unfold matchAtStart. intros H.
  destruct (matchLiteral "Bearer" s) as [afterScheme|] eqn:Hscheme; [|discriminate].
  destruct afterScheme as [|c rest]; [discriminate|].
  destruct (isWhiteSpace c) eqn:Hc; [|discriminate].
  destruct (matchLiteral_suffix _ _ _ Hscheme) as [b1 [-> _]].
  rewrite every_app. simpl. unfold isNonWhiteSpace at 2. rewrite Hc. simpl.
  apply andb_false_r.
Qed.

Lemma firstMatch_at_start (s token : string) :
  matchAtStart s = Some token -> firstMatch s = Some token.
Proof.
  destruct s as [|c s]; intros H.
  - cbv in H. discriminate.
  - simpl. now rewrite H.
Qed.

Lemma firstMatch_later (c : ascii) (s : string) :
  matchAtStart (String c s) = None -> firstMatch (String c s) = firstMatch s.
Proof.
  intros H.
  change (firstMatch (String c s))
    with (match matchAtStart (String c s) with
          | Some token => Some token
          | None => firstMatch s
          end).
  now rewrite H.
Qed.

(** X1: a token the router extracts is never empty, holds no white space, and
    is a piece of the header it was taken from. *)
Theorem getBearerToken_token_is_well_formed :
  forall (header : option string) (token : string),
    getBearerToken header = Some token ->
    token <> EmptyString /\
    every isNonWhiteSpace token = true /\
    exists h before after : string,
      header = Some h /\ h = before ++ token ++ after.
Proof.
  intros [h|] token H; [|discriminate]. simpl in H.
  assert (Hshape : token <> EmptyString /\ every isNonWhiteSpace token = true /\
                   exists before after : string, h = before ++ token ++ after).
  { induction h as [|c h IH].
    - simpl in H. discriminate.
    - simpl in H.
      destruct (matchAtStart (String c h)) as [t|] eqn:Hhere.
      + injection H as ->. now apply matchAtStart_shape.
      + destruct (IH H) as (Hne & Hws & before & after & ->).
        repeat split; trivial. now exists (String c before), after. }
  destruct Hshape as (Hne & Hws & before & after & Hh).
  repeat split; trivial. now exists h, before, after.
Qed.

Lemma getBearerToken_reads_the_token_at_start (token : string) :
  token <> EmptyString ->
  every isNonWhiteSpace token = true ->
  firstMatch ("Bearer " ++ token) = Some token.
Proof.
  intros Htoken Hnws. apply firstMatch_at_start.
  unfold matchAtStart. simpl.
  destruct token as [|t token]; [contradiction|].
  pose proof Hnws as Hall.
  simpl in Hnws. apply andb_prop in Hnws as [Ht _].
  assert (Hstop : isWhiteSpace t = false)
    by (unfold isNonWhiteSpace in Ht; now destruct (isWhiteSpace t)).
  simpl dropWhile. rewrite Hstop.
  rewrite <- (string_app_nil (String t token)).
  rewrite takeWhile_app; simpl; trivial.
  now rewrite string_app_nil.
Qed.

(** X2: a header that reads <scheme><white space><token>, with the scheme
    spelled Bearer in any letter case, a token without white space, and nothing
    or white space after the token, yields exactly that token. *)
Theorem getBearerToken_reads_the_token :
  forall scheme space token rest : string,
    matchLiteral "Bearer" scheme = Some EmptyString ->
    space <> EmptyString ->
    every isWhiteSpace space = true ->
    token <> EmptyString ->
    every isNonWhiteSpace token = true ->
    stopsAt isNonWhiteSpace rest ->
    getBearerToken (Some (scheme ++ space ++ token ++ rest)) = Some token.
Proof.
  intros scheme space token rest Hscheme Hspace Hws Htoken Hnws Hrest.
  simpl.
  assert (Hhere : matchAtStart (scheme ++ space ++ token ++ rest) = Some token).
  { unfold matchAtStart. rewrite (matchLiteral_app _ _ _ Hscheme).
    destruct space as [|c space]; [contradiction|].
    simpl in Hws. apply andb_prop in Hws as [Hc Hws].
    simpl. rewrite Hc.
    destruct token as [|t token]; [contradiction|].
    rewrite dropWhile_app; trivial.
    - rewrite takeWhile_app; trivial.
    - simpl in Hnws. apply andb_prop in Hnws as [Ht _].
      simpl. unfold isNonWhiteSpace in Ht. now destruct (isWhiteSpace t). }
  now apply firstMatch_at_start.
Qed.

(** X3: without a header, or with a header that holds no white space at all
    (the bare scheme, a token alone), there is no token. *)
Theorem getBearerToken_needs_white_space :
  getBearerToken None = None /\
  forall h : string,
    every isNonWhiteSpace h = true -> getBearerToken (Some h) = None.
Proof.
  split; [reflexivity|].
  intros h. simpl.
  induction h as [|c h IH]; intros Hh.
  - reflexivity.
  - simpl.
    destruct (matchAtStart (String c h)) as [t|] eqn:Hhere.
    + apply matchAtStart_needs_white_space in Hhere. congruence.
    + apply IH. simpl in Hh. now apply andb_prop in Hh as [_ Hh].
Qed.

Lemma string_length_app (a b : string) :
  String.length (a ++ b) = String.length a + String.length b.
Proof. induction a as [|x a IH]; simpl; [reflexivity | now rewrite IH]. Qed.

Lemma every_get (p : ascii -> bool) (s : string) :
  every p s = true ->
  forall (n : nat) (c : ascii), String.get n s = Some c -> p c = true.
Proof.
  induction s as [|x s IH]; intros Hs n c Hget.
  - destruct n; discriminate.
  - simpl in Hs. apply andb_prop in Hs as [Hx Hs].
    destruct n as [|n]; simpl in Hget.
    + injection Hget as <-. exact Hx.
    + now apply (IH Hs n).
Qed.

Lemma matchAtStart_white_space_after_scheme (s token : string) :
  matchAtStart s = Some token ->
  exists w : ascii, String.get 6 s = Some w /\ isWhiteSpace w = true.
Proof.
  unfold matchAtStart. intros H.
  destruct (matchLiteral "Bearer" s) as [afterScheme|] eqn:Hscheme; [|discriminate].
  destruct afterScheme as [|c rest]; [discriminate|].
  destruct (isWhiteSpace c) eqn:Hc; [|discriminate].
  destruct (matchLiteral_suffix _ _ _ Hscheme) as [before [-> Hlen]].
  exists c. split; [|exact Hc].
  pose proof (String.append_correct2 before (String c rest) 0) as Hget.
  rewrite Hlen in Hget. simpl in Hget. now rewrite <- Hget.
Qed.

(** X4: the pattern is not anchored: whatever precedes the scheme, as long as
    it holds no white space, is ignored, so a header <junk>Bearer <token>
    yields the token as well. *)
Theorem getBearerToken_ignores_what_precedes_the_scheme :
  forall junk token : string,
    every isNonWhiteSpace junk = true ->
    token <> EmptyString ->
    every isNonWhiteSpace token = true ->
    getBearerToken (Some (junk ++ "Bearer " ++ token)) = Some token.
Proof.
  intros junk token Hjunk Htoken Hnws.
  change (firstMatch (junk ++ "Bearer " ++ token) = Some token).
  induction junk as [|c junk IH].
  - apply (getBearerToken_reads_the_token_at_start token Htoken Hnws).
  - assert (Hsplit : junk ++ "Bearer " ++ token = (junk ++ "Bearer") ++ " " ++ token)
      by (now rewrite string_app_assoc).
    simpl in Hjunk. apply andb_prop in Hjunk as [_ Hjunk].
    change (String c junk ++ "Bearer " ++ token)
      with (String c (junk ++ "Bearer " ++ token)).
    rewrite firstMatch_later; [now apply IH|].
    destruct (matchAtStart (String c (junk ++ "Bearer " ++ token))) as [t|] eqn:Hhere;
      [exfalso | reflexivity].
    rewrite Hsplit in Hhere.
    destruct (matchAtStart_white_space_after_scheme _ _ Hhere) as (w & Hget & Hw).
    change (String.get 5 ((junk ++ "Bearer") ++ " " ++ token) = Some w) in Hget.
    rewrite <- String.append_correct1 in Hget.
    + assert (Hall : every isNonWhiteSpace (junk ++ "Bearer") = true).
      { rewrite every_app, Hjunk. reflexivity. }
      pose proof (every_get _ _ Hall _ _ Hget) as Hnot.
      unfold isNonWhiteSpace in Hnot. rewrite Hw in Hnot. discriminate.
    + rewrite string_length_app. simpl. lia.
Qed.

End BearerToken.

(** ** The progress stream, further *)

Section EventStreamFurther.
Import EventStream Framing.

Lemma quoteCodeUnit_noLineBreak (c : ascii) :
  noLineBreak (JSON.quoteCodeUnit c) = true.
Proof.
  destruct c as [[] [] [] [] [] [] [] []]; vm_compute; reflexivity.
Qed.

Lemma quoteCodeUnits_noLineBreak (s : string) :
  noLineBreak (JSON.quoteCodeUnits s) = true.
Proof.
  unfold noLineBreak.
  induction s as [|c s IH]; simpl; [reflexivity|].
  pose proof (quoteCodeUnit_noLineBreak c) as Hc. unfold noLineBreak in Hc.
  now rewrite every_app, IH, Hc.
Qed.

(** X5: the payload of an event never holds a raw line feed or carriage
    return, whatever the log line, error message or result is: a line break
    inside a message cannot split or end the event it is sent in. *)
Theorem stringify_has_no_line_break :
  forall data : Data, noLineBreak (stringify data) = true.
Proof.
  intros [s|[[|]]]; try reflexivity.
  unfold stringify, JSON.stringifyString, noLineBreak.
  pose proof (quoteCodeUnits_noLineBreak s) as Hs. unfold noLineBreak in Hs.
  now rewrite !every_app, Hs.
Qed.

Variables (res0 res : Response) (h : DocsSynchronizerSyncOpts).
Hypothesis Hcreated : createEventStream res0 = Some (res, h).

Lemma created_response :
  body res = body res0 /\ ended res = ended res0 /\
  endsOnSocketClose res = (hasSocket res0 || endsOnSocketClose res0)%bool.
Proof.
  unfold createEventStream, writeHead in Hcreated.
  destruct (head res0); [discriminate|].
  injection Hcreated as <- _.
  unfold onSocketClose. cbn.
  destruct (hasSocket res0); cbn; auto.
Qed.

Lemma performAll_logs (logs : list string) :
  forall r : Response,
    ended r = false ->
    body (performAll h (map Log logs) r)
    = (body r ++ map (fun data => frame EventLog (DataString data)) logs)%list /\
    ended (performAll h (map Log logs) r) = false.
Proof.
  destruct (created_callbacks res0 res h Hcreated) as (Hlog & _ & _).
  induction logs as [|data logs IH]; intros r Hopen; cbn.
  - now rewrite app_nil_r.
  - fold (performAll h (map Log logs) (log h data r)).
    rewrite Hlog.
    destruct (send_while_open EventLog (DataString data) r Hopen) as [Hbody Hstill].
    destruct (IH _ Hstill) as [Hbody' Hstill'].
    rewrite Hbody', Hbody, <- app_assoc. now split.
Qed.

(** X6: on a stream created on an open response, the log lines sent before the
    first error or finish are delivered in order, then that event, and nothing
    of what is sent after it. *)
Theorem createEventStream_delivers_until_terminal_event :
  forall (logs : list string) (a : Action) (after : list Action),
    ended res0 = false ->
    isTerminal a = true ->
    body (performAll h (map Log logs ++ a :: after) res)
    = (body res0 ++
       map (fun data => frame EventLog (DataString data)) logs ++
       frameOf a)%list.
Proof.
  intros logs a after Hopen Hterminal.
  destruct created_response as (Hbody & Hended & _).
  rewrite <- Hended in Hopen.
  destruct (performAll_logs logs res Hopen) as [Hlogs Hstill].
  unfold performAll in *. rewrite fold_left_app. cbn [fold_left].
  fold (performAll h (map Log logs) res) in *.
  set (r := performAll h (map Log logs) res) in *.
  fold (performAll h after (perform h a r)).
  destruct (performAll_after_end res0 res h Hcreated after (perform h a r)
              (perform_terminal_ends res0 res h Hcreated a r Hterminal))
    as [Hafter _].
  rewrite Hafter.
  destruct (created_callbacks res0 res h Hcreated) as (_ & Herror & Hfinish).
  destruct a as [data|e|result|]; try discriminate; cbn [perform].
  - rewrite Herror. cbn [end_ body].
    destruct (send_while_open EventError (DataString (err_message e)) r Hstill)
      as [-> _].
    rewrite Hlogs, Hbody, <- app_assoc. reflexivity.
  - rewrite Hfinish. cbn [end_ body].
    destruct (send_while_open EventFinish (DataResult result) r Hstill) as [-> _].
    rewrite Hlogs, Hbody, <- app_assoc. reflexivity.
Qed.

Lemma perform_keeps_listener (a : Action) (r : Response) :
  endsOnSocketClose (perform h a r) = endsOnSocketClose r.
Proof.
  destruct (created_callbacks res0 res h Hcreated) as (Hlog & Herror & Hfinish).
  destruct a as [data|e|result|]; cbn [perform].
  - rewrite Hlog. unfold send, write, flush.
    destruct (ended r); destruct (hasFlush r) eqn:Hf; cbn; try rewrite Hf; reflexivity.
  - rewrite Herror. unfold send, write, flush.
    destruct (ended r); destruct (hasFlush r) eqn:Hf; cbn; try rewrite Hf; reflexivity.
  - rewrite Hfinish. unfold send, write, flush.
    destruct (ended r); destruct (hasFlush r) eqn:Hf; cbn; try rewrite Hf; reflexivity.
  - destruct (endsOnSocketClose r) eqn:Hl; [exact Hl | exact Hl].
Qed.

Lemma performAll_keeps_listener (actions : list Action) :
  forall r : Response,
    endsOnSocketClose (performAll h actions r) = endsOnSocketClose r.
Proof.
  induction actions as [|a actions IH]; intros r; cbn; [reflexivity|].
  fold (performAll h actions (perform h a r)).
  now rewrite IH, perform_keeps_listener.
Qed.

(** X7: when the response has a socket, the client closing the connection ends
    the stream: whatever is logged, finished or failed afterwards writes
    nothing more. *)
Theorem createEventStream_socket_close_ends_the_stream :
  forall (before after : list Action),
    hasSocket res0 = true ->
    body (performAll h (before ++ SocketClosed :: after) res)
    = body (performAll h before res) /\
    ended (performAll h (before ++ SocketClosed :: after) res) = true.
Proof.
  intros before after Hsocket.
  destruct created_response as (_ & _ & Hlistener).
  rewrite Hsocket in Hlistener. cbn in Hlistener.
  unfold performAll. rewrite fold_left_app. cbn [fold_left].
  fold (performAll h before res).
  set (r := performAll h before res).
  fold (performAll h after (perform h SocketClosed r)).
  assert (Hclosed : perform h SocketClosed r = end_ r).
  { cbn [perform]. unfold r. now rewrite performAll_keeps_listener, Hlistener. }
  rewrite Hclosed.
  destruct (performAll_after_end res0 res h Hcreated after (end_ r) eq_refl)
    as [Hbody Hended].
  now rewrite Hbody.
Qed.

End EventStreamFurther.

(** ** The Create-RC orchestrator, further *)

Section CreateRcFurther.
Import Effects CreateRc.
Context {W : Type}.
Variable apiClient : RMaaSApiClient W.
Variable defaultBranch : string.
Variable latestRelease : option GhGetReleaseResponse.
Variable nextGheInfo : RcGheInfo.
Variable successCb : option (SuccessCb W).

(** createRef fails, whatever the error: the run throws, and only
    getLatestCommit and createRef have been called. *)
Lemma createGheRc_createRef_rejects
    (st : St W) (latestCommit : GhCommit) (w1 w2 : W) (e : ErrorValue) :
  getLatestCommit apiClient defaultBranch (world st) = (inr latestCommit, w1) ->
  createRef (createRc apiClient) (sha latestCommit) (rcBranch nextGheInfo) w1
    = (inl e, w2) ->
  exists t : Thrown,
    createGheRc apiClient defaultBranch latestRelease nextGheInfo successCb st
    = (Threw t,
       {| world := w2;
          calls := (calls st ++
                    [CallGetLatestCommit defaultBranch;
                     CallCreateRef (sha latestCommit) (rcBranch nextGheInfo)])%list |}).
Proof.
  intros H1 H2. start_run st. unfold createGheRc.
  step_await H1.
  unfold tryCatch. step_await H2.
  unfold readBodyMessage, bind, ret, throw.
  destruct (err_body e) as [b|].
  - destruct (body_message b) as [m|].
    + destruct (String.eqb m "Reference already exists");
        eexists; f_equal; f_equal; finish_calls.
    + eexists. f_equal. f_equal. finish_calls.
  - eexists. f_equal. f_equal. finish_calls.
Qed.

(** X8: when getLatestCommit rejects, the run throws that very error and has
    called nothing else. *)
Theorem createGheRc_aborts_at_getLatestCommit
    (st : St W) (e : ErrorValue) (w1 : W) :
  getLatestCommit apiClient defaultBranch (world st) = (inl e, w1) ->
  createGheRc apiClient defaultBranch latestRelease nextGheInfo successCb st
  = (Threw (Rejection e),
     {| world := w1;
        calls := (calls st ++ [CallGetLatestCommit defaultBranch])%list |}).
Proof.
  exact (createGheRc_getLatestCommit_rejects apiClient defaultBranch latestRelease
           nextGheInfo successCb st e w1).
Qed.

(** X9: when createRef rejects with an error that carries a body whose message
    is anything but "Reference already exists" (another message, or none), the
    run throws that very error; getComparison and createRelease are not
    called. *)
Theorem createGheRc_rethrows_other_createRef_errors
    (st : St W) (latestCommit : GhCommit) (w1 w2 : W)
    (e : ErrorValue) (b : ErrorBody) :
  getLatestCommit apiClient defaultBranch (world st) = (inr latestCommit, w1) ->
  createRef (createRc apiClient) (sha latestCommit) (rcBranch nextGheInfo) w1
    = (inl e, w2) ->
  err_body e = Some b ->
  body_message b <> Some "Reference already exists" ->
  createGheRc apiClient defaultBranch latestRelease nextGheInfo successCb st
  = (Threw (Rejection e),
     {| world := w2;
        calls := (calls st ++
                  [CallGetLatestCommit defaultBranch;
                   CallCreateRef (sha latestCommit) (rcBranch nextGheInfo)])%list |}).
Proof.
  exact (createGheRc_createRef_rejects_with_body apiClient defaultBranch
           latestRelease nextGheInfo successCb st latestCommit w1 w2 e b).
Qed.

(** X10: when getComparison rejects, the run throws that very error after the
    branch has been cut: createRef stays called, createRelease and the success
    callback are not called. *)
Theorem createGheRc_aborts_at_getComparison
    (st : St W) (latestCommit : GhCommit) (w1 w2 w3 : W)
    (createdRef : GhCreateReferenceResponse) (e : ErrorValue) :
  getLatestCommit apiClient defaultBranch (world st) = (inr latestCommit, w1) ->
  createRef (createRc apiClient) (sha latestCommit) (rcBranch nextGheInfo) w1
    = (inr createdRef, w2) ->
  getComparison (createRc apiClient)
    (match latestRelease with
     | Some r => target_commitish r
     | None => defaultBranch
     end) (rcBranch nextGheInfo) w2
    = (inl e, w3) ->
  createGheRc apiClient defaultBranch latestRelease nextGheInfo successCb st
  = (Threw (Rejection e),
     {| world := w3;
        calls := (calls st ++
                  [CallGetLatestCommit defaultBranch;
                   CallCreateRef (sha latestCommit) (rcBranch nextGheInfo);
                   CallGetComparison
                     (match latestRelease with
                      | Some r => target_commitish r
                      | None => defaultBranch
                      end) (rcBranch nextGheInfo)])%list |}).
Proof.
  exact (createGheRc_getComparison_rejects apiClient defaultBranch latestRelease
           nextGheInfo successCb st latestCommit w1 w2 w3 createdRef e).
Qed.

(** X11: when createRelease rejects, the run throws that very error; the
    success callback is not called, and the steps of the three calls that
    succeeded are not returned. *)
Theorem createGheRc_aborts_at_createRelease
    (st : St W) (latestCommit : GhCommit) (w1 w2 w3 w4 : W)
    (createdRef : GhCreateReferenceResponse) (comparison : GhComparison)
    (e : ErrorValue) :
  getLatestCommit apiClient defaultBranch (world st) = (inr latestCommit, w1) ->
  createRef (createRc apiClient) (sha latestCommit) (rcBranch nextGheInfo) w1
    = (inr createdRef, w2) ->
  getComparison (createRc apiClient)
    (match latestRelease with
     | Some r => target_commitish r
     | None => defaultBranch
     end) (rcBranch nextGheInfo) w2
    = (inr comparison, w3) ->
  createRelease (createRc apiClient) nextGheInfo
    (releaseBodyOf comparison createdRef) w3 = (inl e, w4) ->
  createGheRc apiClient defaultBranch latestRelease nextGheInfo successCb st
  = (Threw (Rejection e),
     {| world := w4;
        calls := (calls st ++
                  [CallGetLatestCommit defaultBranch;
                   CallCreateRef (sha latestCommit) (rcBranch nextGheInfo);
                   CallGetComparison
                     (match latestRelease with
                      | Some r => target_commitish r
                      | None => defaultBranch
                      end) (rcBranch nextGheInfo);
                   CallCreateRelease nextGheInfo
                     (releaseBodyOf comparison createdRef)])%list |}).
Proof.
  exact (createGheRc_createRelease_rejects apiClient defaultBranch latestRelease
           nextGheInfo successCb st latestCommit w1 w2 w3 w4 createdRef comparison e).
Qed.

(** Every run, by how far it got: the calls it added and what it returned. *)
Lemma createGheRc_run_shape (st : St W) :
  exists (new : list Call) (k : nat),
    calls (snd (createGheRc apiClient defaultBranch latestRelease nextGheInfo
                  successCb st))
    = (calls st ++ new)%list /\
    map CallOrder.position new = seq 1 k /\
    1 <= k <= 5 /\
    (successCb = None -> k <= 4) /\
    forall steps : list ResponseStep,
      fst (createGheRc apiClient defaultBranch latestRelease nextGheInfo
             successCb st) = Returned steps ->
      4 <= k /\
      length steps = 4 /\
      map icon steps = [None; None; None; None] /\
      exists u1 u3 u4 : string, map link steps = [Some u1; None; Some u3; Some u4].
Proof.
  destruct (getLatestCommit apiClient defaultBranch (world st))
    as [[e|latestCommit] w1] eqn:H1.
  { rewrite (createGheRc_getLatestCommit_rejects _ _ _ _ _ _ _ _ H1).
    eexists. exists 1. cbn [snd fst calls].
    repeat split; try reflexivity; try lia; discriminate. }
  destruct (createRef (createRc apiClient) (sha latestCommit) (rcBranch nextGheInfo) w1)
    as [[e|createdRef] w2] eqn:H2.
  { destruct (createGheRc_createRef_rejects _ _ _ _ _ H1 H2) as [t ->].
    eexists. exists 2. cbn [snd fst calls].
    repeat split; try reflexivity; try lia; discriminate. }
  destruct (getComparison (createRc apiClient)
              (match latestRelease with
               | Some r => target_commitish r
               | None => defaultBranch
               end) (rcBranch nextGheInfo) w2)
    as [[e|comparison] w3] eqn:H3.
  { rewrite (createGheRc_getComparison_rejects _ _ _ _ _ _ _ _ _ _ _ _ H1 H2 H3).
    eexists. exists 3. cbn [snd fst calls].
    repeat split; try reflexivity; try lia; discriminate. }
  destruct (createRelease (createRc apiClient) nextGheInfo
              (releaseBodyOf comparison createdRef) w3)
    as [[e|response] w4] eqn:H4.
  { rewrite (createGheRc_createRelease_rejects _ _ _ _ _ _ _ _ _ _ _ _ _ _
               H1 H2 H3 H4).
    eexists. exists 4. cbn [snd fst calls].
    repeat split; try reflexivity; try lia; discriminate. }
  pose proof (createGheRc_run_of_succeeding_calls apiClient defaultBranch
                latestRelease nextGheInfo successCb st latestCommit w1 w2 w3 w4
                createdRef comparison response H1 H2 H3 H4) as [_ Hrun].
  destruct successCb as [cb|]; rewrite Hrun; cbn [snd fst calls].
  - eexists. exists 5.
    split; [reflexivity|]. split; [reflexivity|]. split; [lia|].
    split; [discriminate|].
    intros steps Hsteps.
    destruct (fst (cb _ w4)); [discriminate|].
    injection Hsteps as <-. cbn.
    repeat split; try lia. now do 3 eexists.
  - eexists. exists 4.
    split; [reflexivity|]. split; [reflexivity|]. split; [lia|].
    split; [lia|].
    intros steps Hsteps. injection Hsteps as <-. cbn.
    repeat split; try lia. now do 3 eexists.
Qed.

(** X12: whatever the facade and the callback do, the calls of a run are an
    initial part of the fixed sequence getLatestCommit, createRef,
    getComparison, createRelease, success callback, each at most once and
    getLatestCommit always; without a callback the run stops at createRelease;
    and a run that returns its steps has got at least as far as createRelease
    and returns exactly four steps. *)
Theorem createGheRc_calls_follow_the_sequence (st : St W) :
  exists (new : list Call) (k : nat),
    calls (snd (createGheRc apiClient defaultBranch latestRelease nextGheInfo
                  successCb st))
    = (calls st ++ new)%list /\
    map CallOrder.position new = seq 1 k /\
    1 <= k <= 5 /\
    (successCb = None -> k <= 4) /\
    forall steps : list ResponseStep,
      fst (createGheRc apiClient defaultBranch latestRelease nextGheInfo
             successCb st) = Returned steps ->
      4 <= k /\ length steps = 4.
Proof.
  destruct (createGheRc_run_shape st) as (new & k & Hcalls & Hseq & Hk & Hcb & Hsteps).
  exists new, k.
  split; [exact Hcalls|]. split; [exact Hseq|]. split; [exact Hk|].
  split; [exact Hcb|].
  intros steps Hreturned.
  destruct (Hsteps steps Hreturned) as (Hfar & Hfour & _).
  now split.
Qed.

(** X13: no step of a Create-RC run that returns is shown with the success or
    the failure icon: the second step (the cut branch) shows the default dot,
    and the other three show the button that opens their link, or the default
    dot when that link is the empty string. *)
Theorem createGheRc_steps_icons (st : St W) (steps : list ResponseStep) :
  fst (createGheRc apiClient defaultBranch latestRelease nextGheInfo successCb st)
  = Returned steps ->
  exists u1 u3 u4 : string,
    let button (u : string) :=
      if String.eqb u EmptyString
      then ResponseStepListItem.FiberManualRecordIcon
      else ResponseStepListItem.OpenInNewButton u in
    map link steps = [Some u1; None; Some u3; Some u4] /\
    map ResponseStepListItem.ItemIcon steps
    = [button u1; ResponseStepListItem.FiberManualRecordIcon; button u3; button u4].
Proof.
  intros Hsteps.
  destruct (createGheRc_run_shape st) as (new & k & _ & _ & _ & _ & Hshape).
  destruct (Hshape steps Hsteps) as (_ & _ & Hicons & u1 & u3 & u4 & Hlinks).
  exists u1, u3, u4. cbn zeta. split; [exact Hlinks|].
  destruct steps as [|s1 [|s2 [|s3 [|s4 [|s5 rest]]]]]; try discriminate.
  cbn in Hicons, Hlinks.
  injection Hicons as Hi1 Hi2 Hi3 Hi4.
  injection Hlinks as Hl1 Hl2 Hl3 Hl4.
  cbn. unfold ResponseStepListItem.ItemIcon.
  now rewrite Hi1, Hi2, Hi3, Hi4, Hl1, Hl2, Hl3, Hl4.
Qed.

End CreateRcFurther.

(** ** The naming resolver, further *)

Section NamingResolverFurther.
Context {E : Type}.
Variable getSemverTagParts : string -> E + SemverTagParts.
Variable getBumpedSemverTagParts : SemverTagParts -> SemverPart -> SemverTagParts.
Variable today : string.

(** X14: whatever the strategy, the names the resolver returns agree on one
    version: the branch is rc/<version>, the release name is Version <version>,
    and the tag is rc-<version>, followed by _0 on calver projects only. *)
Theorem getRcGheInfo_names_agree
    (project : Project) (latestRelease : option GhGetReleaseResponse)
    (semverBumpLevel : SemverPart) (injectedDate : option string)
    (info : RcGheInfo) :
  NamingResolver.getRcGheInfo getSemverTagParts getBumpedSemverTagParts today
    project latestRelease semverBumpLevel injectedDate = inr info ->
  exists version : string,
    rcBranch info = "rc/" ++ version /\
    releaseName info = "Version " ++ version /\
    rcReleaseTag info
    = "rc-" ++ version ++
      match versioningStrategy project with
      | calver => "_0"
      | semver => EmptyString
      end.
Proof.
  unfold NamingResolver.getRcGheInfo. intros H.
  destruct (versioningStrategy project).
  - destruct latestRelease as [r|].
    + destruct (getSemverTagParts (tag_name r)) as [e|tagParts]; [discriminate|].
      injection H as <-. cbn [rcBranch releaseName rcReleaseTag].
      eexists. split; [reflexivity|]. split; [reflexivity|].
      now rewrite string_app_nil.
    + injection H as <-. now exists "0.0.1".
  - injection H as <-. cbn [rcBranch releaseName rcReleaseTag].
    eexists. split; [reflexivity|]. split; reflexivity.
Qed.

(** X15: the resolver fails only when it has a latest release to read on a
    semver project and the tag of that release cannot be read, and then with
    the error of the tag reader; on a calver project, and for a first release,
    it always returns. *)
Theorem getRcGheInfo_fails_only_on_unreadable_tag
    (project : Project) (latestRelease : option GhGetReleaseResponse)
    (semverBumpLevel : SemverPart) (injectedDate : option string) (e : E) :
  NamingResolver.getRcGheInfo getSemverTagParts getBumpedSemverTagParts today
    project latestRelease semverBumpLevel injectedDate = inl e
  <->
  versioningStrategy project = semver /\
  exists r : GhGetReleaseResponse,
    latestRelease = Some r /\ getSemverTagParts (tag_name r) = inl e.
Proof.
  unfold NamingResolver.getRcGheInfo. split.
  - intros H.
    destruct (versioningStrategy project); [|discriminate].
    destruct latestRelease as [r|]; [|discriminate].
    destruct (getSemverTagParts (tag_name r)) as [e'|tagParts] eqn:Htag;
      [|discriminate].
    injection H as ->. split; [reflexivity|]. now exists r.
  - intros [-> (r & -> & ->)]. reflexivity.
Qed.

End NamingResolverFurther.

(** ** The sync route of the techdocs router *)

Section SyncRouteProperties.
Import Router.
Context {Preparers Generators : Type}.
Variable options : RouterOptions Preparers Generators.
Variable collaborators : Collaborators Preparers Generators.
Variable cache : bool.
Variable req : Request.

(** X16: when the loaded entity is absent or has no uid (or an empty one), the
    route throws NotFoundError and leaves the response and the console as they
    were (no head, no event, no warning), whatever the build strategy and the
    synchronizer would answer. *)
Theorem syncRoute_needs_entity_uid (st : RouteState) (entity : option Entity) :
  load collaborators (kind req) (namespace req) (entityName req)
    (getBearerToken (authorization req)) = inr entity ->
  withUid entity = None ->
  syncRoute options collaborators cache req st
  = (Some (NotFoundError "Entity metadata UID missing"), st).
Proof.
  intros Hload Huid. unfold syncRoute. now rewrite Hload, Huid.
Qed.

(** X17: when no build is needed and no cache is set up, a client that asked
    for text/event-stream on a fresh response gets the 200 event-stream head,
    exactly one finish event saying updated: false, and the end of the stream,
    and nothing is thrown; any other client is warned about and gets
    NotModifiedError thrown, with nothing sent. *)
Theorem syncRoute_nothing_to_build
    (st : RouteState) (entity : option Entity) (e : Entity) :
  load collaborators (kind req) (namespace req) (entityName req)
    (getBearerToken (authorization req)) = inr entity ->
  withUid entity = Some e ->
  shouldBuild collaborators e = inr false ->
  cache = false ->
  (accept req = Some "text/event-stream" ->
   EventStream.head (stream st) = None ->
   EventStream.ended (stream st) = false ->
   exists st' : RouteState,
     syncRoute options collaborators cache req st = (None, st') /\
     EventStream.head (stream st')
     = Some (200%N, [("Connection", "keep-alive");
                     ("Cache-Control", "no-cache");
                     ("Content-Type", "text/event-stream")]) /\
     EventStream.body (stream st')
     = (EventStream.body (stream st) ++
        [EventStream.frame EventStream.EventFinish
           (EventStream.DataResult {| EventStream.updated := false |})])%list /\
     EventStream.ended (stream st') = true /\
     resCalls st' = resCalls st /\ warnings st' = warnings st) /\
  (accept req <> Some "text/event-stream" ->
   syncRoute options collaborators cache req st
   = (Some NotModifiedError,
      {| stream := stream st;
         resCalls := resCalls st;
         warnings := (warnings st ++ [deprecationWarning])%list |})).
Proof.
  intros Hload Huid Hbuild Hcache. subst cache. split.
  - intros Haccept Hhead Hopen.
    unfold syncRoute. rewrite Hload, Huid, Haccept.
    rewrite String.eqb_refl. cbn [negb].
    unfold EventStream.createEventStream, EventStream.writeHead. rewrite Hhead.
    rewrite Hbuild.
    eexists. split; [reflexivity|].
    cbn. unfold EventStream.send, EventStream.write, EventStream.onSocketClose.
    destruct (EventStream.hasSocket (stream st)); cbn; rewrite Hopen; cbn;
      destruct (EventStream.hasFlush (stream st)) eqn:Hflush; cbn;
      try rewrite Hflush; cbn; repeat split; reflexivity.
  - intros Haccept.
    unfold syncRoute. rewrite Hload, Huid.
    assert (Hlegacy : match accept req with
                      | Some a => String.eqb a "text/event-stream"
                      | None => false
                      end = false).
    { destruct (accept req) as [a|]; [|reflexivity].
      destruct (String.eqb_spec a "text/event-stream") as [->|]; [|reflexivity].
      now contradiction Haccept. }
    rewrite Hlegacy. cbn [negb]. rewrite Hbuild. reflexivity.
Qed.

(** X18: when a build is needed but the router was set up without preparers,
    a client that asked for text/event-stream on a fresh response gets one
    error event carrying the invalid-configuration message and the end of the
    stream, and nothing is thrown; any other client gets that error thrown. *)
Theorem syncRoute_build_without_preparers
    (st : RouteState) (entity : option Entity) (e : Entity) :
  load collaborators (kind req) (namespace req) (entityName req)
    (getBearerToken (authorization req)) = inr entity ->
  withUid entity = Some e ->
  shouldBuild collaborators e = inr true ->
  preparers options = None ->
  (accept req = Some "text/event-stream" ->
   EventStream.head (stream st) = None ->
   EventStream.ended (stream st) = false ->
   exists st' : RouteState,
     syncRoute options collaborators cache req st = (None, st') /\
     EventStream.body (stream st')
     = (EventStream.body (stream st) ++
        [EventStream.frame EventStream.EventError
           (EventStream.DataString (err_message invalidConfiguration))])%list /\
     EventStream.ended (stream st') = true) /\
  (accept req <> Some "text/event-stream" ->
   syncRoute options collaborators cache req st
   = (Some (ErrorObject invalidConfiguration),
      {| stream := stream st;
         resCalls := resCalls st;
         warnings := (warnings st ++ [deprecationWarning])%list |})).
Proof.
  intros Hload Huid Hbuild Hprep. split.
  - intros Haccept Hhead Hopen.
    unfold syncRoute, isOutOfTheBoxOption.
    rewrite Hload, Huid, Haccept, Hprep.
    rewrite String.eqb_refl. cbn [negb].
    unfold EventStream.createEventStream, EventStream.writeHead. rewrite Hhead.
    rewrite Hbuild.
    eexists. split; [reflexivity|].
    cbn. unfold EventStream.send, EventStream.write, EventStream.onSocketClose.
    destruct (EventStream.hasSocket (stream st)); cbn; rewrite Hopen; cbn;
      destruct (EventStream.hasFlush (stream st)) eqn:Hflush; cbn;
      try rewrite Hflush; cbn; repeat split; reflexivity.
  - intros Haccept.
    unfold syncRoute, isOutOfTheBoxOption. rewrite Hload, Huid, Hprep.
    assert (Hlegacy : match accept req with
                      | Some a => String.eqb a "text/event-stream"
                      | None => false
                      end = false).
    { destruct (accept req) as [a|]; [|reflexivity].
      destruct (String.eqb_spec a "text/event-stream") as [->|]; [|reflexivity].
      now contradiction Haccept. }
    rewrite Hlegacy. cbn [negb]. rewrite Hbuild. reflexivity.
Qed.

(** X19: the event stream is opened before the build strategy is asked: when
    shouldBuild rejects for a client that asked for text/event-stream, the
    error is thrown with the 200 head already sent, no event written and the
    stream not ended. *)
Theorem syncRoute_shouldBuild_rejects_after_head
    (st : RouteState) (entity : option Entity) (e : Entity) (err : RouterError) :
  load collaborators (kind req) (namespace req) (entityName req)
    (getBearerToken (authorization req)) = inr entity ->
  withUid entity = Some e ->
  shouldBuild collaborators e = inl err ->
  accept req = Some "text/event-stream" ->
  EventStream.head (stream st) = None ->
  exists st' : RouteState,
    syncRoute options collaborators cache req st = (Some err, st') /\
    EventStream.head (stream st')
    = Some (200%N, [("Connection", "keep-alive");
                    ("Cache-Control", "no-cache");
                    ("Content-Type", "text/event-stream")]) /\
    EventStream.body (stream st') = EventStream.body (stream st) /\
    EventStream.ended (stream st') = EventStream.ended (stream st).
Proof.
  intros Hload Huid Hbuild Haccept Hhead.
  unfold syncRoute. rewrite Hload, Huid, Haccept.
  rewrite String.eqb_refl. cbn [negb].
  unfold EventStream.createEventStream, EventStream.writeHead. rewrite Hhead.
  rewrite Hbuild.
  eexists. split; [reflexivity|].
  cbn. unfold EventStream.onSocketClose.
  destruct (EventStream.hasSocket (stream st)); cbn; repeat split; reflexivity.
Qed.

End SyncRouteProperties.

(** ** The further properties on examples *)

Lemma getBearerToken_token_is_well_formed_example :
  Router.getBearerToken (Some "Bearer abc.def") = Some "abc.def" /\
  ("abc.def" <> EmptyString /\
   Router.every Router.isNonWhiteSpace "abc.def" = true /\
   exists h before after : string,
     Some "Bearer abc.def" = Some h /\ h = before ++ "abc.def" ++ after).
Proof.
  split; [reflexivity|].
  exact (getBearerToken_token_is_well_formed (Some "Bearer abc.def") "abc.def" eq_refl).
Defined.

Lemma getBearerToken_reads_the_token_example :
  Router.matchLiteral "Bearer" "bEaReR" = Some EmptyString /\
  Router.every Router.isWhiteSpace "  " = true /\
  Router.every Router.isNonWhiteSpace "abc.def" = true /\
  Router.stopsAt Router.isNonWhiteSpace " trailing" /\
  Router.getBearerToken (Some ("bEaReR" ++ "  " ++ "abc.def" ++ " trailing"))
  = Some "abc.def".
Proof.
  repeat (split; [reflexivity|]).
  apply (getBearerToken_reads_the_token "bEaReR" "  " "abc.def" " trailing");
    try reflexivity; discriminate.
Defined.

Lemma getBearerToken_needs_white_space_example :
  Router.every Router.isNonWhiteSpace "Bearer" = true /\
  Router.getBearerToken (Some "Bearer") = None.
Proof.
  split; [reflexivity|].
  exact (proj2 getBearerToken_needs_white_space "Bearer" eq_refl).
Defined.

Lemma getBearerToken_ignores_what_precedes_the_scheme_example :
  Router.every Router.isNonWhiteSpace "Not" = true /\
  Router.every Router.isNonWhiteSpace "abc.def" = true /\
  Router.getBearerToken (Some ("Not" ++ "Bearer " ++ "abc.def")) = Some "abc.def".
Proof.
  repeat (split; [reflexivity|]).
  apply (getBearerToken_ignores_what_precedes_the_scheme "Not" "abc.def");
    try reflexivity; discriminate.
Defined.

Lemma createEventStream_delivers_until_terminal_event_example :
  exists (res : EventStream.Response) (h : EventStream.DocsSynchronizerSyncOpts),
    EventStream.createEventStream Fixtures.freshResponse = Some (res, h) /\
    EventStream.ended Fixtures.freshResponse = false /\
    EventStream.body
      (EventStream.performAll h
         (map EventStream.Log ["Preparing"; "Generating"] ++
          EventStream.Finish {| EventStream.updated := true |} ::
          [EventStream.Log "late"]) res)
    = (EventStream.body Fixtures.freshResponse ++
       map (fun data =>
              EventStream.frame EventStream.EventLog (EventStream.DataString data))
           ["Preparing"; "Generating"] ++
       Framing.frameOf (EventStream.Finish {| EventStream.updated := true |}))%list.
Proof.
  eexists. eexists. split; [reflexivity|]. split; [reflexivity|].
  exact (createEventStream_delivers_until_terminal_event Fixtures.freshResponse _ _
           eq_refl ["Preparing"; "Generating"]
           (EventStream.Finish {| EventStream.updated := true |})
           [EventStream.Log "late"] eq_refl eq_refl).
Defined.

Lemma createEventStream_socket_close_ends_the_stream_example :
  exists (res : EventStream.Response) (h : EventStream.DocsSynchronizerSyncOpts),
    EventStream.createEventStream Fixtures.freshResponse = Some (res, h) /\
    EventStream.hasSocket Fixtures.freshResponse = true /\
    EventStream.body
      (EventStream.performAll h
         ([EventStream.Log "Preparing"] ++
          EventStream.SocketClosed ::
          [EventStream.Log "late"; EventStream.Finish {| EventStream.updated := true |}])
         res)
    = EventStream.body (EventStream.performAll h [EventStream.Log "Preparing"] res) /\
    EventStream.ended
      (EventStream.performAll h
         ([EventStream.Log "Preparing"] ++
          EventStream.SocketClosed ::
          [EventStream.Log "late"; EventStream.Finish {| EventStream.updated := true |}])
         res)
    = true.
Proof.
  eexists. eexists. split; [reflexivity|]. split; [reflexivity|].
  exact (createEventStream_socket_close_ends_the_stream Fixtures.freshResponse _ _
           eq_refl [EventStream.Log "Preparing"]
           [EventStream.Log "late"; EventStream.Finish {| EventStream.updated := true |}]
           eq_refl).
Defined.

Lemma createGheRc_aborts_at_getLatestCommit_example :
  CreateRc.getLatestCommit (MoreFixtures.rejectingGetLatestCommit Fixtures.failedToFetch)
    "master" 0 = (inl Fixtures.failedToFetch, 1) /\
  CreateRc.createGheRc (MoreFixtures.rejectingGetLatestCommit Fixtures.failedToFetch)
    "master" None Fixtures.firstRc (Some Fixtures.resolvingCb) Fixtures.start
  = (Threw (Rejection Fixtures.failedToFetch),
     {| Effects.world := 1; Effects.calls := [CallGetLatestCommit "master"] |}).
Proof.
  split; [reflexivity|].
  exact (createGheRc_aborts_at_getLatestCommit
           (MoreFixtures.rejectingGetLatestCommit Fixtures.failedToFetch)
           "master" None Fixtures.firstRc (Some Fixtures.resolvingCb) Fixtures.start
           Fixtures.failedToFetch 1 eq_refl).
Defined.

Lemma createGheRc_rethrows_other_createRef_errors_example :
  CreateRc.getLatestCommit (Fixtures.rejectingCreateRef Fixtures.forbidden) "master" 0
  = (inr Fixtures.stubCommit, 1) /\
  CreateRc.createRef (CreateRc.createRc (Fixtures.rejectingCreateRef Fixtures.forbidden))
    "a1b2c3d" "rc/0.0.1" 1 = (inl Fixtures.forbidden, 2) /\
  err_body Fixtures.forbidden
  = Some {| body_message := Some "Resource not accessible" |} /\
  CreateRc.createGheRc (Fixtures.rejectingCreateRef Fixtures.forbidden)
    "master" None Fixtures.firstRc None Fixtures.start
  = (Threw (Rejection Fixtures.forbidden),
     {| Effects.world := 2;
        Effects.calls := [CallGetLatestCommit "master";
                          CallCreateRef "a1b2c3d" "rc/0.0.1"] |}).
Proof.
  repeat (split; [reflexivity|]).
  apply (createGheRc_rethrows_other_createRef_errors
           (Fixtures.rejectingCreateRef Fixtures.forbidden)
           "master" None Fixtures.firstRc None Fixtures.start
           Fixtures.stubCommit 1 2 Fixtures.forbidden
           {| body_message := Some "Resource not accessible" |});
    try reflexivity; discriminate.
Defined.

Lemma createGheRc_aborts_at_getComparison_example :
  CreateRc.getComparison
    (CreateRc.createRc (MoreFixtures.rejectingGetComparison MoreFixtures.serverError))
    "master" "rc/0.0.1" 2 = (inl MoreFixtures.serverError, 3) /\
  CreateRc.createGheRc (MoreFixtures.rejectingGetComparison MoreFixtures.serverError)
    "master" None Fixtures.firstRc (Some Fixtures.resolvingCb) Fixtures.start
  = (Threw (Rejection MoreFixtures.serverError),
     {| Effects.world := 3;
        Effects.calls := [CallGetLatestCommit "master";
                          CallCreateRef "a1b2c3d" "rc/0.0.1";
                          CallGetComparison "master" "rc/0.0.1"] |}).
Proof.
  split; [reflexivity|].
  exact (createGheRc_aborts_at_getComparison
           (MoreFixtures.rejectingGetComparison MoreFixtures.serverError)
           "master" None Fixtures.firstRc (Some Fixtures.resolvingCb) Fixtures.start
           Fixtures.stubCommit 1 2 3 Fixtures.stubCreatedRef MoreFixtures.serverError
           eq_refl eq_refl eq_refl).
Defined.

Lemma createGheRc_aborts_at_createRelease_example :
  CreateRc.createRelease
    (CreateRc.createRc (MoreFixtures.rejectingCreateRelease MoreFixtures.serverError))
    Fixtures.firstRc
    (CreateRc.releaseBodyOf Fixtures.stubComparison Fixtures.stubCreatedRef) 3
  = (inl MoreFixtures.serverError, 4) /\
  CreateRc.createGheRc (MoreFixtures.rejectingCreateRelease MoreFixtures.serverError)
    "master" None Fixtures.firstRc (Some Fixtures.resolvingCb) Fixtures.start
  = (Threw (Rejection MoreFixtures.serverError),
     {| Effects.world := 4;
        Effects.calls :=
          [CallGetLatestCommit "master";
           CallCreateRef "a1b2c3d" "rc/0.0.1";
           CallGetComparison "master" "rc/0.0.1";
           CallCreateRelease Fixtures.firstRc
             (CreateRc.releaseBodyOf Fixtures.stubComparison
                                     Fixtures.stubCreatedRef)] |}).
Proof.
  split; [reflexivity|].
  exact (createGheRc_aborts_at_createRelease
           (MoreFixtures.rejectingCreateRelease MoreFixtures.serverError)
           "master" None Fixtures.firstRc (Some Fixtures.resolvingCb) Fixtures.start
           Fixtures.stubCommit 1 2 3 4 Fixtures.stubCreatedRef Fixtures.stubComparison
           MoreFixtures.serverError eq_refl eq_refl eq_refl eq_refl).
Defined.

Lemma createGheRc_steps_icons_example :
  exists steps : list ResponseStep,
    fst (CreateRc.createGheRc Fixtures.succeedingApi "master" None Fixtures.firstRc
           None Fixtures.start) = Returned steps /\
    exists u1 u3 u4 : string,
      map link steps = [Some u1; None; Some u3; Some u4] /\
      map ResponseStepListItem.ItemIcon steps
      = [ResponseStepListItem.OpenInNewButton u1;
         ResponseStepListItem.FiberManualRecordIcon;
         ResponseStepListItem.OpenInNewButton u3;
         ResponseStepListItem.OpenInNewButton u4].
Proof.
  eexists. split; [reflexivity|].
  destruct (createGheRc_steps_icons Fixtures.succeedingApi "master" None
              Fixtures.firstRc None Fixtures.start _ eq_refl)
    as (u1 & u3 & u4 & Hlinks & Hicons).
  injection Hlinks as <- <- <-.
  do 3 eexists. split; [reflexivity|]. exact Hicons.
Defined.

Lemma getRcGheInfo_names_agree_example :
  NamingResolver.getRcGheInfo MoreFixtures.readsOneFourNine
    MoreFixtures.bumpsToOneFiveZero "2021.02.03" Fixtures.semverProject
    (Some MoreFixtures.semverRelease) minor None
  = inr {| rcBranch := "rc/1.5.0";
           rcReleaseTag := "rc-1.5.0";
           releaseName := "Version 1.5.0" |} /\
  exists version : string,
    "rc/1.5.0" = "rc/" ++ version /\
    "Version 1.5.0" = "Version " ++ version /\
    "rc-1.5.0" = "rc-" ++ version ++ EmptyString.
Proof.
  split; [reflexivity|].
  exact (getRcGheInfo_names_agree MoreFixtures.readsOneFourNine
           MoreFixtures.bumpsToOneFiveZero "2021.02.03" Fixtures.semverProject
           (Some MoreFixtures.semverRelease) minor None _ eq_refl).
Defined.

Lemma getRcGheInfo_fails_only_on_unreadable_tag_example :
  Fixtures.noTagParts "rc-2024.03.01_0" = inl "rc-2024.03.01_0" /\
  Fixtures.getRcGheInfo Fixtures.semverProject (Some Fixtures.sameDayRelease)
    patch None = inl "rc-2024.03.01_0".
Proof.
  split; [reflexivity|].
  apply (proj2 (getRcGheInfo_fails_only_on_unreadable_tag Fixtures.noTagParts
                  Fixtures.noBump "2021.02.03" Fixtures.semverProject
                  (Some Fixtures.sameDayRelease) patch None "rc-2024.03.01_0")).
  split; [reflexivity|]. now exists Fixtures.sameDayRelease.
Defined.

Lemma syncRoute_needs_entity_uid_example :
  Router.withUid (Some {| Router.uid := Some EmptyString |}) = None /\
  Router.syncRoute MoreFixtures.recommendedDeployment
    (MoreFixtures.stubCollaborators (Some {| Router.uid := Some EmptyString |})
                                    (inr true))
    false MoreFixtures.eventSourceRequest MoreFixtures.freshRoute
  = (Some (Router.NotFoundError "Entity metadata UID missing"),
     MoreFixtures.freshRoute).
Proof.
  split; [reflexivity|].
  exact (syncRoute_needs_entity_uid MoreFixtures.recommendedDeployment
           (MoreFixtures.stubCollaborators
              (Some {| Router.uid := Some EmptyString |}) (inr true))
           false MoreFixtures.eventSourceRequest MoreFixtures.freshRoute
           (Some {| Router.uid := Some EmptyString |}) eq_refl eq_refl).
Defined.

Lemma syncRoute_nothing_to_build_example :
  Router.withUid (Some MoreFixtures.docsEntity) = Some MoreFixtures.docsEntity /\
  Router.accept MoreFixtures.eventSourceRequest = Some "text/event-stream" /\
  EventStream.head (Router.stream MoreFixtures.freshRoute) = None /\
  EventStream.ended (Router.stream MoreFixtures.freshRoute) = false /\
  exists st' : Router.RouteState,
    Router.syncRoute MoreFixtures.recommendedDeployment
      (MoreFixtures.stubCollaborators (Some MoreFixtures.docsEntity) (inr false))
      false MoreFixtures.eventSourceRequest MoreFixtures.freshRoute = (None, st') /\
    EventStream.body (Router.stream st')
    = [EventStream.frame EventStream.EventFinish
         (EventStream.DataResult {| EventStream.updated := false |})] /\
    EventStream.ended (Router.stream st') = true.
Proof.
  repeat (split; [reflexivity|]).
  destruct (proj1 (syncRoute_nothing_to_build MoreFixtures.recommendedDeployment
                     (MoreFixtures.stubCollaborators (Some MoreFixtures.docsEntity)
                                                     (inr false))
                     false MoreFixtures.eventSourceRequest MoreFixtures.freshRoute
                     (Some MoreFixtures.docsEntity) MoreFixtures.docsEntity
                     eq_refl eq_refl eq_refl eq_refl) eq_refl eq_refl eq_refl)
    as (st' & Hrun & _ & Hbody & Hended & _).
  exists st'. split; [exact Hrun|]. split; [exact Hbody | exact Hended].
Defined.

Lemma syncRoute_build_without_preparers_example :
  Router.preparers MoreFixtures.recommendedDeployment = None /\
  Router.accept MoreFixtures.eventSourceRequest = Some "text/event-stream" /\
  exists st' : Router.RouteState,
    Router.syncRoute MoreFixtures.recommendedDeployment
      (MoreFixtures.stubCollaborators (Some MoreFixtures.docsEntity) (inr true))
      true MoreFixtures.eventSourceRequest MoreFixtures.freshRoute = (None, st') /\
    EventStream.body (Router.stream st')
    = [EventStream.frame EventStream.EventError
         (EventStream.DataString (err_message Router.invalidConfiguration))] /\
    EventStream.ended (Router.stream st') = true.
Proof.
  repeat (split; [reflexivity|]).
  exact (proj1 (syncRoute_build_without_preparers MoreFixtures.recommendedDeployment
                  (MoreFixtures.stubCollaborators (Some MoreFixtures.docsEntity)
                                                  (inr true))
                  true MoreFixtures.eventSourceRequest MoreFixtures.freshRoute
                  (Some MoreFixtures.docsEntity) MoreFixtures.docsEntity
                  eq_refl eq_refl eq_refl eq_refl) eq_refl eq_refl eq_refl).
Defined.

Lemma syncRoute_shouldBuild_rejects_after_head_example :
  Router.accept MoreFixtures.eventSourceRequest = Some "text/event-stream" /\
  EventStream.head (Router.stream MoreFixtures.freshRoute) = None /\
  exists st' : Router.RouteState,
    Router.syncRoute MoreFixtures.recommendedDeployment
      (MoreFixtures.stubCollaborators (Some MoreFixtures.docsEntity)
                                      (inl MoreFixtures.buildFailure))
      false MoreFixtures.eventSourceRequest MoreFixtures.freshRoute
    = (Some MoreFixtures.buildFailure, st') /\
    EventStream.head (Router.stream st')
    = Some (200%N, [("Connection", "keep-alive");
                    ("Cache-Control", "no-cache");
                    ("Content-Type", "text/event-stream")]) /\
    EventStream.body (Router.stream st') = [] /\
    EventStream.ended (Router.stream st') = false.
Proof.
  repeat (split; [reflexivity|]).
  exact (syncRoute_shouldBuild_rejects_after_head MoreFixtures.recommendedDeployment
           (MoreFixtures.stubCollaborators (Some MoreFixtures.docsEntity)
                                           (inl MoreFixtures.buildFailure))
           false MoreFixtures.eventSourceRequest MoreFixtures.freshRoute
           (Some MoreFixtures.docsEntity) MoreFixtures.docsEntity
           MoreFixtures.buildFailure eq_refl eq_refl eq_refl eq_refl eq_refl).
Defined.
